(** * watchmedo: shell file monitoring utilities

    A shallow embedding of [watchdog/watchmedo.py] and the properties of
    its pattern parsing, trick scheduling and observer supervision. *)

From Stdlib Require Import String Ascii ZArith Lia.
From stdpp Require Import base option list strings.

(** ** Python values

    Values decoded from a YAML document, and the values the module builds
    itself (the empty tuple and the empty dict used as defaults).  A dict is
    kept as the list of its items, in the order [items()] yields them; the
    keys of the dicts of a configuration are strings. *)

#[warnings="-register-all"]
Inductive PyVal : Type :=
| VNone
| VBool (b : bool)
| VInt (z : Z)
| VStr (s : string)
| VList (l : list PyVal)
| VTuple (l : list PyVal)
| VDict (d : list (string * PyVal)).

(** ** Strings: [str.split] with a one-character separator *)

Module Str.

(** [s.split(sep)]: the pieces of [s] between the occurrences of [sep];
    the result is never empty, [''.split(sep) == ['']]. *)
Fixpoint split (sep : ascii) (s : string) : list string :=
  match s with
  | EmptyString => [EmptyString]
  | String c rest =>
      if Ascii.eqb c sep then EmptyString :: split sep rest
      else match split sep rest with
           | piece :: pieces => String c piece :: pieces
           | [] => [String c EmptyString]
           end
  end.

(** [sep.join(pieces)], used to state what [split] returns. *)
Fixpoint join (sep : ascii) (pieces : list string) : string :=
  match pieces with
  | [] => EmptyString
  | [piece] => piece
  | piece :: rest => piece +:+ String sep (join sep rest)
  end.

(** [c in s] for a character. *)
Fixpoint has_char (c : ascii) (s : string) : bool :=
  match s with
  | EmptyString => false
  | String c' rest => Ascii.eqb c' c || has_char c rest
  end.

(** [sub in s] for strings. *)
Fixpoint contains (sub s : string) : bool :=
  String.prefix sub s ||
  match s with
  | EmptyString => false
  | String _ rest => contains sub rest
  end.

(** The one-character strings a [for] loop over a string yields. *)
Fixpoint chars (s : string) : list string :=
  match s with
  | EmptyString => []
  | String c rest => String c EmptyString :: chars rest
  end.

End Str.

(** ** Pattern specifications *)

Definition string_list_eqb (l1 l2 : list string) : bool :=
  bool_decide (l1 = l2).

(** [parse_patterns(patterns_spec, ignore_patterns_spec)] *)
Definition parse_patterns (patterns_spec ignore_patterns_spec : string)
  : list string * list string :=
  let separator := ";"%char in
  let patterns := Str.split separator patterns_spec in
  let ignore_patterns := Str.split separator ignore_patterns_spec in
  let ignore_patterns :=
    if string_list_eqb ignore_patterns [""] then [] else ignore_patterns in
  (patterns, ignore_patterns).

(** ** Exceptions and outcomes *)

Inductive Exn : Type :=
| IOError (msg : string)
| KeyError (msg : string)
| NameError (name : string)
| TypeError (msg : string)
| AttributeError (msg : string)
| ImportError (msg : string)
| KeyboardInterrupt
| AlreadyRunningError
| ObserverError (msg : string).

(** What a call does: it returns, raises, or never returns. *)
Inductive Result (A : Type) : Type :=
| Ok (a : A)
| Raise (e : Exn)
| Blocks.

Arguments Ok {A} a.
Arguments Raise {A} e.
Arguments Blocks {A}.

(** ** Operations on decoded values *)

Definition py_is_str (key : string) (v : PyVal) : bool :=
  match v with
  | VStr s => String.eqb s key
  | _ => false
  end.

(** [d[key]] on the items of a dict. *)
Fixpoint dict_lookup (key : string) (d : list (string * PyVal)) : option PyVal :=
  match d with
  | [] => None
  | (k, v) :: rest => if String.eqb k key then Some v else dict_lookup key rest
  end.

(** [key in v] for a string [key]. *)
Definition py_contains (key : string) (v : PyVal) : Result bool :=
  match v with
  | VDict d =>
      match dict_lookup key d with
      | Some _ => Ok true
      | None => Ok false
      end
  | VList l | VTuple l => Ok (existsb (py_is_str key) l)
  | VStr s => Ok (Str.contains key s)
  | VNone | VBool _ | VInt _ => Raise (TypeError "argument is not iterable")
  end.

(** [v[key]] for a string [key]. *)
Definition py_getitem (v : PyVal) (key : string) : Result PyVal :=
  match v with
  | VDict d =>
      match dict_lookup key d with
      | Some x => Ok x
      | None => Raise (KeyError key)
      end
  | VList _ | VTuple _ | VStr _ => Raise (TypeError "indices must be integers")
  | VNone | VBool _ | VInt _ => Raise (TypeError "object is not subscriptable")
  end.

(** [v.get(key, default)] *)
Definition py_get (v : PyVal) (key : string) (default : PyVal) : Result PyVal :=
  match v with
  | VDict d =>
      match dict_lookup key d with
      | Some x => Ok x
      | None => Ok default
      end
  | _ => Raise (AttributeError "get")
  end.

(** [v.items()] *)
Definition py_items (v : PyVal) : Result (list (string * PyVal)) :=
  match v with
  | VDict d => Ok d
  | _ => Raise (AttributeError "items")
  end.

(** The values a [for] loop over [v] yields. *)
Definition py_iter (v : PyVal) : Result (list PyVal) :=
  match v with
  | VList l | VTuple l => Ok l
  | VStr s => Ok (map VStr (Str.chars s))
  | VDict d => Ok (map (fun kv => VStr (fst kv)) d)
  | VNone | VBool _ | VInt _ => Raise (TypeError "object is not iterable")
  end.

(** The values a [for] loop over the slice [v[::-1]] yields. *)
Definition py_reversed (v : PyVal) : Result (list PyVal) :=
  match v with
  | VList l | VTuple l => Ok (rev l)
  | VStr s => Ok (rev (map VStr (Str.chars s)))
  | VDict _ => Raise (TypeError "unhashable type")
  | VNone | VBool _ | VInt _ => Raise (TypeError "object is not subscriptable")
  end.

(** [l.insert(index, x)] for an index that is not negative: past the end
    of the list the element is appended. *)
Definition list_insert_at {A} (index : nat) (x : A) (l : list A) : list A :=
  take index l ++ x :: drop index l.

(** ** The world the module runs in *)

(** A session identifier: a name given by the caller, or the value of
    [uuid.uuid1().hex], which is determined by the clock reading it was
    made from. *)
Inductive Identifier : Type :=
| IdName (name : string)
| IdUuid (stamp : nat).

Inductive ObserverCall : Type :=
| CallSchedule (identifier : Identifier) (paths : list string) (recursive : bool)
| CallStart
| CallUnschedule (identifier : option Identifier)
| CallStop
| CallJoin.

(** What the module does to the outside, in the order it does it. *)
Inductive Event : Type :=
| EvWarn (key trick_name : string)
| EvLoadClass (search_path : list PyVal) (name : string)
| EvCall (observer : nat) (call : ObserverCall)
| EvSleep.

#[global] Instance Identifier_eq_dec : EqDecision Identifier.
Proof. solve_decision. Defined.

#[global] Instance ObserverCall_eq_dec : EqDecision ObserverCall.
Proof. solve_decision. Defined.

(** The collaborators the module imports: the file system, the YAML
    decoder, [watchdog.utils], the trick classes, and the platform's
    observation primitive, which may refuse a call. *)
Class Platform : Type := {
  TrickClass : Type;
  Handler : Type;
  os_path_sep : ascii;
  os_path_exists : string -> bool;
  read_text_file : string -> Result string;
  yaml_load : string -> Result PyVal;
  get_parent_dir_path : string -> string;
  load_class : list PyVal -> string -> Result TrickClass;
  instantiate : TrickClass -> PyVal -> PyVal -> Result Handler;
  observer_fault : nat -> ObserverCall -> option Exn
}.

(** Modelled from the spec: the life cycle of an observer handle. *)
Inductive ObserverState : Type := Idle | Running | Stopping | Stopped.

#[global] Instance ObserverState_eq_dec : EqDecision ObserverState.
Proof. solve_decision. Defined.

Section Model.
Context `{Platform}.

(** Modelled from the spec: a watch session, the binding of one handler to
    its root paths under an identifier. *)
Record WatchSession : Type := {
  identifier : Identifier;
  handler : Handler;
  root_paths : list string;
  recursive : bool
}.

(** Modelled from the spec: an observer handle, its state and the sessions
    registered on it, in the order of registration. *)
Record ObserverHandle : Type := {
  state : ObserverState;
  sessions : list WatchSession
}.

(** [sys.path], the clock [uuid.uuid1()] reads, the observer objects made
    so far (an observer is named by its position in [heap]), and the
    events so far. *)
Record World : Type := {
  sys_path : list PyVal;
  uuid_clock : nat;
  heap : list ObserverHandle;
  trace : list Event
}.

Definition set_sys_path (p : list PyVal) (w : World) : World :=
  {| sys_path := p; uuid_clock := uuid_clock w; heap := heap w; trace := trace w |}.

Definition set_uuid_clock (n : nat) (w : World) : World :=
  {| sys_path := sys_path w; uuid_clock := n; heap := heap w; trace := trace w |}.

Definition set_heap (h : list ObserverHandle) (w : World) : World :=
  {| sys_path := sys_path w; uuid_clock := uuid_clock w; heap := h; trace := trace w |}.

Definition log_event (e : Event) (w : World) : World :=
  {| sys_path := sys_path w; uuid_clock := uuid_clock w; heap := heap w;
     trace := trace w ++ [e] |}.

(** *** Computations: state and exceptions *)

Definition M (A : Type) : Type := World -> Result A * World.

Definition ret {A} (a : A) : M A := fun w => (Ok a, w).

Definition raise {A} (e : Exn) : M A := fun w => (Raise e, w).

Definition bind {A B} (m : M A) (k : A -> M B) : M B :=
  fun w =>
    match m w with
    | (Ok a, w') => k a w'
    | (Raise e, w') => (Raise e, w')
    | (Blocks, w') => (Blocks, w')
    end.

Definition lift {A} (r : Result A) : M A := fun w => (r, w).

Definition emit (e : Event) : M unit := fun w => (Ok tt, log_event e w).

Local Notation "'do' x <- m ; k" := (bind m (fun x => k))
  (at level 10, x name, m at level 100, k at level 200).
Local Notation "'do' ' p <- m ; k" := (bind m (fun x => match x with p => k end))
  (at level 10, p pattern, m at level 100, k at level 200).
Local Notation "m ;; k" := (bind m (fun _ => k))
  (at level 100, k at level 200, right associativity).

(** [for x in l: body(x)] *)
Fixpoint for_each {A} (l : list A) (body : A -> M unit) : M unit :=
  match l with
  | [] => ret tt
  | x :: rest => body x ;; for_each rest body
  end.

(** A [for] loop that rebinds or extends a local variable. *)
Fixpoint for_fold {A S} (l : list A) (acc : S) (body : S -> A -> M S) : M S :=
  match l with
  | [] => ret acc
  | x :: rest => do acc' <- body acc x; for_fold rest acc' body
  end.

(** [try: body / except KeyboardInterrupt: on_interrupt] *)
Definition try_except_KeyboardInterrupt (body on_interrupt : M unit) : M unit :=
  fun w =>
    match body w with
    | (Raise KeyboardInterrupt, w') => on_interrupt w'
    | r => r
    end.

(** [while True: time.sleep(1)], with the interrupt delivered during the
    sleep after [n] full ones, or never. *)
Fixpoint sleep_until_interrupt (n : nat) : M unit :=
  match n with
  | O => emit EvSleep ;; raise KeyboardInterrupt
  | S n' => emit EvSleep ;; sleep_until_interrupt n'
  end.

Definition sleep_forever (interrupt : option nat) : M unit :=
  match interrupt with
  | Some n => sleep_until_interrupt n
  | None => lift Blocks
  end.

(** [uuid.uuid1().hex]: made from the clock, which has moved on at the
    next call. *)
Definition uuid1_hex : M Identifier :=
  fun w => (Ok (IdUuid (uuid_clock w)), set_uuid_clock (S (uuid_clock w)) w).

(** *** The observer *)

(** The [Observer] class of the [watchdog] package is not part of
    [watchmedo.py]; its methods follow the contract of the specification.
    A handle is Idle, Running, Stopping or Stopped and holds its sessions.
    The specification leaves open what [stop()] does to an Idle handle and
    what [join()] does to one that was not stopped; here the first is
    refused and the second never returns. *)

(** Modelled from the spec: [Observer.schedule], valid only in Idle or
    Running, adds a session and returns its identifier. *)
Definition do_schedule (s : WatchSession) (h : ObserverHandle)
  : Result (Identifier * ObserverHandle) :=
  match state h with
  | Idle | Running =>
      Ok (identifier s, {| state := state h; sessions := sessions h ++ [s] |})
  | Stopping | Stopped => Raise (ObserverError "schedule: handle is stopping or stopped")
  end.

(** Modelled from the spec: [Observer.start], Idle to Running; a handle
    that was started before raises [AlreadyRunningError]. *)
Definition do_start (h : ObserverHandle) : Result (unit * ObserverHandle) :=
  match state h with
  | Idle => Ok (tt, {| state := Running; sessions := sessions h |})
  | Running | Stopping | Stopped => Raise AlreadyRunningError
  end.

(** Modelled from the spec: the sessions [Observer.unschedule] keeps: all
    but the one named, none when no identifier is given. *)
Definition keep_session (target : option Identifier) (s : WatchSession) : bool :=
  match target with
  | None => false
  | Some i => negb (bool_decide (identifier s = i))
  end.

(** Modelled from the spec: [Observer.unschedule], valid in Running or
    Stopping. *)
Definition do_unschedule (target : option Identifier) (h : ObserverHandle)
  : Result (unit * ObserverHandle) :=
  match state h with
  | Running | Stopping =>
      Ok (tt, {| state := state h;
                 sessions := List.filter (keep_session target) (sessions h) |})
  | Idle | Stopped => Raise (ObserverError "unschedule: handle is not running")
  end.

(** Modelled from the spec: [Observer.stop], Running or Stopping to
    Stopped, and nothing on a handle already Stopped. *)
Definition do_stop (h : ObserverHandle) : Result (unit * ObserverHandle) :=
  match state h with
  | Running | Stopping => Ok (tt, {| state := Stopped; sessions := sessions h |})
  | Stopped => Ok (tt, h)
  | Idle => Raise (ObserverError "stop: handle was never started")
  end.

(** Modelled from the spec: [Observer.join], which returns once the
    handle is Stopped. *)
Definition do_join (h : ObserverHandle) : Result (unit * ObserverHandle) :=
  match state h with
  | Stopped => Ok (tt, h)
  | Idle | Running | Stopping => Blocks
  end.

(** A method call on observer [o]: the call is made, the platform may
    refuse it, otherwise the handle moves as [step] says. *)
Definition observer_call {A} (o : nat) (call : ObserverCall)
    (step : ObserverHandle -> Result (A * ObserverHandle)) : M A :=
  fun w =>
    let w := log_event (EvCall o call) w in
    match heap w !! o with
    | None => (Raise (ObserverError "no such observer"), w)
    | Some h =>
        match observer_fault o call with
        | Some e => (Raise e, w)
        | None =>
            match step h with
            | Ok (a, h') => (Ok a, set_heap (<[o:=h']> (heap w)) w)
            | Raise e => (Raise e, w)
            | Blocks => (Blocks, w)
            end
        end
    end.

(** [Observer()] *)
Definition Observer : M nat :=
  fun w =>
    (Ok (length (heap w)),
     set_heap (heap w ++ [{| state := Idle; sessions := [] |}]) w).

Definition observer_schedule (o : nat) (i : Identifier) (event_handler : Handler)
    (paths : list string) (rec : bool) : M Identifier :=
  observer_call o (CallSchedule i paths rec)
    (do_schedule {| identifier := i; handler := event_handler;
                    root_paths := paths; recursive := rec |}).

Definition observer_start (o : nat) : M unit :=
  observer_call o CallStart do_start.

Definition observer_unschedule (o : nat) (i : option Identifier) : M unit :=
  observer_call o (CallUnschedule i) (do_unschedule i).

Definition observer_stop (o : nat) : M unit :=
  observer_call o CallStop do_stop.

Definition observer_join (o : nat) : M unit :=
  observer_call o CallJoin do_join.

(** *** watchmedo.py *)

Definition CONFIG_KEY_TRICKS : string := "tricks".
Definition CONFIG_KEY_PYTHON_PATH : string := "python-path".

(** [path_split(path_spec, separator=os.path.sep)] *)
Definition path_split (path_spec : string) (separator : ascii) : list string :=
  Str.split separator path_spec.

(** [add_to_sys_path(paths, index=0)] *)
Definition add_to_sys_path (paths : PyVal) (index : nat) : M unit :=
  do reversed <- lift (py_reversed paths);
  for_each reversed (fun path =>
    fun w => (Ok tt, set_sys_path (list_insert_at index path (sys_path w)) w)).

(** [load_config(tricks_file)] *)
Definition load_config (tricks_file : string) : M PyVal :=
  do content <- lift (read_text_file tricks_file);
  do config <- lift (yaml_load content);
  ret config.

(** [check_trick_has_key(trick_name, trick, key)] *)
Definition check_trick_has_key (trick_name : string) (trick : PyVal) (key : string)
  : M unit :=
  do present <- lift (py_contains key trick);
  if negb present then emit (EvWarn key trick_name) else ret tt.

(** [load_class(trick_name)], which searches [sys.path] as it is now. *)
Definition call_load_class (trick_name : string) : M TrickClass :=
  fun w =>
    (load_class (sys_path w) trick_name,
     log_event (EvLoadClass (sys_path w) trick_name) w).

(** The body of the inner loop of [schedule_tricks]. *)
Definition schedule_trick (observer : nat) (watch_path : string)
    (item : string * PyVal) : M unit :=
  let '(trick_name, trick_value) := item in
  check_trick_has_key trick_name trick_value "kwargs" ;;
  check_trick_has_key trick_name trick_value "args" ;;
  do trick_kwargs <- lift (py_get trick_value "kwargs" (VDict []));
  do trick_args <- lift (py_get trick_value "args" (VTuple []));
  do TrickClass <- call_load_class trick_name;
  do trick_event_handler <- lift (instantiate TrickClass trick_args trick_kwargs);
  do unique_identifier <- uuid1_hex;
  observer_schedule observer unique_identifier trick_event_handler [watch_path] true ;;
  ret tt.

(** [schedule_tricks(observer, tricks, watch_path)] *)
Definition schedule_tricks (observer : nat) (tricks : PyVal) (watch_path : string)
  : M unit :=
  do trick_list <- lift (py_iter tricks);
  for_each trick_list (fun trick =>
    do items <- lift (py_items trick);
    for_each items (schedule_trick observer watch_path)).

(** [observe_with(observer, identifier, event_handler, paths, recursive)] *)
Definition observe_with (observer : nat) (i : Identifier) (event_handler : Handler)
    (paths : list string) (rec : bool) (interrupt : option nat) : M unit :=
  observer_schedule observer i event_handler paths rec ;;
  observer_start observer ;;
  try_except_KeyboardInterrupt
    (sleep_forever interrupt)
    (observer_unschedule observer (Some i) ;;
     observer_stop observer) ;;
  observer_join observer.

Record Args : Type := {
  python_path : string;
  files : list string
}.

(** The body of the first loop of [tricks_from]; [input_file] is bound
    nowhere in the module. *)
Definition start_tricks_file (observers : list nat) (tricks_file : string)
  : M (list nat) :=
  do observer <- Observer;
  if negb (os_path_exists tricks_file)
  then raise (IOError ("cannot find tricks file: " +:+ tricks_file))
  else
    do config <- load_config tricks_file;
    do has_tricks <- lift (py_contains CONFIG_KEY_TRICKS config);
    if negb has_tricks
    then raise (NameError "input_file")
    else
      do tricks <- lift (py_getitem config CONFIG_KEY_TRICKS);
      do has_python_path <- lift (py_contains CONFIG_KEY_PYTHON_PATH config);
      (if has_python_path
       then do paths <- lift (py_getitem config CONFIG_KEY_PYTHON_PATH);
            add_to_sys_path paths 0
       else ret tt) ;;
      let dir_path := get_parent_dir_path tricks_file in
      schedule_tricks observer tricks dir_path ;;
      observer_start observer ;;
      ret (observers ++ [observer]).

(** The handler of the interrupt in [tricks_from]. *)
Definition stop_observers (observers : list nat) : M unit :=
  for_each observers (fun o =>
    observer_unschedule o None ;;
    observer_stop o).

Definition join_observers (observers : list nat) : M unit :=
  for_each observers observer_join.

(** The end of [tricks_from], from the [try] statement on. *)
Definition wait_and_stop (observers : list nat) (interrupt : option nat) : M unit :=
  try_except_KeyboardInterrupt
    (sleep_forever interrupt)
    (stop_observers observers) ;;
  join_observers observers.

(** [tricks_from(args)] *)
Definition tricks_from (args : Args) (interrupt : option nat) : M unit :=
  add_to_sys_path (VList (map VStr (path_split (python_path args) os_path_sep))) 0 ;;
  do observers <- for_fold (files args) [] start_tricks_file;
  wait_and_stop observers interrupt.

End Model.

Arguments M {_} A.
Arguments World {_}.
Arguments WatchSession {_}.
Arguments ObserverHandle {_}.

(** ** What scheduling is expected to leave behind *)

Section Expected.
Context `{Platform}.

Definition dict_get (d : list (string * PyVal)) (key : string) (default : PyVal)
  : PyVal :=
  match dict_lookup key d with
  | Some x => x
  | None => default
  end.

(** An item of a trick mapping whose class is found on the search path
    and accepts the item's arguments, with the handler made from it. *)
Inductive builds (search_path : list PyVal) : string * PyVal -> Handler -> Prop :=
| builds_handler name d class event_handler :
    load_class search_path name = Ok class ->
    instantiate class (dict_get d "args" (VTuple [])) (dict_get d "kwargs" (VDict []))
      = Ok event_handler ->
    builds search_path (name, VDict d) event_handler.

(** An item whose class is not found, or does not accept the arguments. *)
Inductive fails_with (search_path : list PyVal) : string * PyVal -> Exn -> Prop :=
| fails_to_resolve name d e :
    load_class search_path name = Raise e ->
    fails_with search_path (name, VDict d) e
| fails_to_instantiate name d class e :
    load_class search_path name = Ok class ->
    instantiate class (dict_get d "args" (VTuple [])) (dict_get d "kwargs" (VDict []))
      = Raise e ->
    fails_with search_path (name, VDict d) e.

Definition trick_session (watch_path : string) (stamp : nat) (event_handler : Handler)
  : WatchSession :=
  {| identifier := IdUuid stamp; handler := event_handler;
     root_paths := [watch_path]; recursive := true |}.

(** One session per handler, stamped from [stamp] on. *)
Fixpoint sessions_from (watch_path : string) (stamp : nat) (handlers : list Handler)
  : list WatchSession :=
  match handlers with
  | [] => []
  | event_handler :: rest =>
      trick_session watch_path stamp event_handler
        :: sessions_from watch_path (S stamp) rest
  end.

Definition add_sessions (h : ObserverHandle) (new : list WatchSession)
  : ObserverHandle :=
  {| state := state h; sessions := sessions h ++ new |}.

Definition missing_key_warnings (name : string) (v : PyVal) : list Event :=
  match v with
  | VDict d =>
      match dict_lookup "kwargs" d with
      | Some _ => []
      | None => [EvWarn "kwargs" name]
      end ++
      match dict_lookup "args" d with
      | Some _ => []
      | None => [EvWarn "args" name]
      end
  | _ => []
  end.

(** The events of an item up to the search for its class. *)
Definition resolve_events (search_path : list PyVal) (item : string * PyVal)
  : list Event :=
  missing_key_warnings (fst item) (snd item) ++ [EvLoadClass search_path (fst item)].

(** The events of the items that are scheduled, the first one with the
    identifier made at [stamp]. *)
Fixpoint schedule_events (search_path : list PyVal) (o : nat) (watch_path : string)
    (stamp : nat) (items : list (string * PyVal)) : list Event :=
  match items with
  | [] => []
  | item :: rest =>
      resolve_events search_path item ++
      EvCall o (CallSchedule (IdUuid stamp) [watch_path] true)
        :: schedule_events search_path o watch_path (S stamp) rest
  end.

Definition accepts_sessions (h : ObserverHandle) : Prop :=
  state h = Idle \/ state h = Running.

(** The calls of the interrupt handler of [tricks_from] on one observer. *)
Definition stop_calls (o : nat) : list Event :=
  [EvCall o (CallUnschedule None); EvCall o CallStop].

Definition join_call (o : nat) : Event := EvCall o CallJoin.

Definition sleeps (n : nat) : list Event := replicate n EvSleep.

Definition is_running (w : World) (o : nat) : Prop :=
  exists h, heap w !! o = Some h /\ state h = Running.

Definition running_state (s : ObserverState) : bool :=
  match s with
  | Running => true
  | Idle | Stopping | Stopped => false
  end.

Definition running_count (w : World) : nat :=
  length (List.filter (fun h => running_state (state h)) (heap w)).

(** The calls made on observer [o], in the order of the trace. *)
Fixpoint calls_on (o : nat) (events : list Event) : list ObserverCall :=
  match events with
  | [] => []
  | EvCall o' call :: rest =>
      if Nat.eqb o' o then call :: calls_on o rest else calls_on o rest
  | _ :: rest => calls_on o rest
  end.

Definition idle_observer : ObserverHandle := {| state := Idle; sessions := [] |}.

Definition stopped_observer : ObserverHandle := {| state := Stopped; sessions := [] |}.

(** An event that scheduling on observer [o] may cause while the search
    path is [search_path]: a warning, a search on that path, or a
    [schedule] call on [o]. *)
Definition scheduling_event (search_path : list PyVal) (o : nat) (e : Event) : Prop :=
  match e with
  | EvWarn _ _ => True
  | EvLoadClass search_path' _ => search_path' = search_path
  | EvCall o' (CallSchedule _ _ _) => o' = o
  | EvCall _ _ => False
  | EvSleep => False
  end.

(** What scheduling on observer [o] may change: the sessions of [o], the
    clock, and the trace, by scheduling events only. *)
Definition schedules_on (o : nat) (w w' : World) : Prop :=
  sys_path w' = sys_path w /\
  length (heap w') = length (heap w) /\
  (forall j, j <> o -> heap w' !! j = heap w !! j) /\
  state <$> heap w' !! o = state <$> heap w !! o /\
  exists evs, trace w' = trace w ++ evs /\
              Forall (scheduling_event (sys_path w) o) evs.

(** Every run of [m] stays within [R]. *)
Definition preserves {A} (R : World -> World -> Prop) (m : M A) : Prop :=
  forall w r w', m w = (r, w') -> R w w'.

(** A tricks file that cannot be used: it is not there, or its document
    has no [tricks] key. *)
Definition unusable (tricks_file : string) (e : Exn) : Prop :=
  (os_path_exists tricks_file = false /\
   e = IOError ("cannot find tricks file: " +:+ tricks_file)) \/
  (os_path_exists tricks_file = true /\
   e = NameError "input_file" /\
   exists content config,
     read_text_file tricks_file = Ok content /\
     yaml_load content = Ok config /\
     py_contains CONFIG_KEY_TRICKS config = Ok false).

Definition add_events (evs : list Event) (w : World) : World :=
  {| sys_path := sys_path w; uuid_clock := uuid_clock w; heap := heap w;
     trace := trace w ++ evs |}.

(** The heap once the observers of [observers] are stopped, their
    sessions removed. *)
Definition stop_all (observers : list nat) (hp : list ObserverHandle)
  : list ObserverHandle :=
  foldl (fun hp o => <[o := stopped_observer]> hp) hp observers.

Definition never_refused (o : nat) (calls : list ObserverCall) : Prop :=
  Forall (fun call => observer_fault o call = None) calls.

(** The observers of [observers] are distinct and running. *)
Definition all_running (w : World) (observers : list nat) : Prop :=
  NoDup observers /\ Forall (is_running w) observers.

End Expected.

(** ** A small platform to run the module on

    Two trick classes live in a directory that is on the search path only
    when a configuration adds it; the observation primitive refuses the
    calls [fault] says. *)

Module Demo.

Definition documents : list (string * PyVal) :=
  [ ("/srv/a/tricks.yaml",
     VDict [ ("python-path", VList [VStr "/opt/tricks"; VStr "/opt/more"]);
             ("tricks",
              VList [ VDict [("tricks.Logger", VDict [("args", VList [VStr "*.py"]);
                                                      ("kwargs", VDict [])])];
                      VDict [("tricks.Shell", VDict [("kwargs", VDict [("cmd", VStr "make")])])] ]) ]);
    ("/srv/b/tricks.yaml",
     VDict [ ("python-path", VList [VStr "/opt/tricks"]);
             ("tricks", VList [ VDict [("tricks.Logger", VDict [])] ]) ]);
    ("/srv/c/tricks.yaml",
     VDict [ ("python-path", VList [VStr "/opt/tricks"]);
             ("tricks",
              VList [ VDict [("tricks.Missing", VDict [("args", VList []); ("kwargs", VDict [])])];
                      VDict [("tricks.Logger", VDict [("args", VList []); ("kwargs", VDict [])])] ]) ]);
    ("/srv/d/tricks.yaml",
     VDict [ ("python-path", VList [VStr "/opt/tricks"]) ]) ].

Definition classes : list (string * string) :=
  [ ("/opt/tricks", "tricks.Logger"); ("/opt/tricks", "tricks.Shell") ].

Definition demo_exists (path : string) : bool :=
  match dict_lookup path documents with
  | Some _ => true
  | None => false
  end.

(** The text of a document stands for itself: a file is read as its own
    path and decoded through the table. *)
Definition demo_read (path : string) : Result string :=
  if demo_exists path then Ok path else Raise (IOError path).

Definition demo_yaml_load (content : string) : Result PyVal :=
  match dict_lookup content documents with
  | Some v => Ok v
  | None => Ok VNone
  end.

Definition demo_parent (path : string) : string :=
  Str.join "/" (removelast (Str.split "/" path)).

Definition demo_load_class (search_path : list PyVal) (name : string) : Result string :=
  if existsb (fun entry => existsb (py_is_str (fst entry)) search_path
                           && String.eqb (snd entry) name) classes
  then Ok name
  else Raise (ImportError name).

Definition demo_instantiate (class : string) (args kwargs : PyVal)
  : Result (string * list PyVal * list (string * PyVal)) :=
  match args, kwargs with
  | (VList a | VTuple a), VDict k => Ok (class, a, k)
  | _, _ => Raise (TypeError "argument list")
  end.

Definition platform (fault : nat -> ObserverCall -> option Exn) : Platform := {|
  TrickClass := string;
  Handler := string * list PyVal * list (string * PyVal);
  os_path_sep := "/"%char;
  os_path_exists := demo_exists;
  read_text_file := demo_read;
  yaml_load := demo_yaml_load;
  get_parent_dir_path := demo_parent;
  load_class := demo_load_class;
  instantiate := demo_instantiate;
  observer_fault := fault
|}.

(** The platform on which no call is refused. *)
Definition quiet : Platform := platform (fun _ _ => None).

(** The platform that refuses [unschedule()] on the first observer. *)
Definition stubborn : Platform :=
  platform (fun o call =>
              match o, call with
              | 0, CallUnschedule None => Some (ObserverError "primitive failed")
              | _, _ => None
              end).

(** The platform that refuses [stop()] on the second observer. *)
Definition jammed : Platform :=
  platform (fun o call =>
              match o, call with
              | 1, CallStop => Some (ObserverError "primitive failed")
              | _, _ => None
              end).

Definition initial (P : Platform) : @World P :=
  {| sys_path := [VStr "/usr/lib/python"]; uuid_clock := 0; heap := []; trace := [] |}.

(** A world with one fresh observer and the trick classes in reach. *)
Definition one_idle (P : Platform) : @World P :=
  {| sys_path := [VStr "/opt/tricks"; VStr "/usr/lib/python"]; uuid_clock := 0;
     heap := [{| state := Idle; sessions := [] |}]; trace := [] |}.

Definition logger_item : string * PyVal :=
  ("tricks.Logger", VDict [("args", VList [VStr "*.py"]); ("kwargs", VDict [])]).

Definition shell_item : string * PyVal :=
  ("tricks.Shell", VDict [("kwargs", VDict [("cmd", VStr "make")])]).

Definition missing_item : string * PyVal :=
  ("tricks.Missing", VDict [("args", VList []); ("kwargs", VDict [])]).

Definition two_tricks_args : Args :=
  {| python_path := "."; files := ["/srv/a/tricks.yaml"; "/srv/b/tricks.yaml"] |}.

(** The world [tricks_from] runs its first loop in. *)
Definition entry (P : Platform) (args : Args) : @World P :=
  set_sys_path
    (map VStr (path_split (python_path args) os_path_sep) ++ sys_path (initial P))
    (initial P).

(** The world of [tricks_from] on [two_tricks_args] when its two observers
    have been started. *)
Definition both_started (P : Platform) : @World P :=
  snd (for_fold (files two_tricks_args) [] start_tricks_file (entry P two_tricks_args)).

End Demo.

(** ** The other commands *)

(** The observer classes [log] can be made to use. *)
Inductive ObserverClass : Type :=
| PollingObserver
| KqueueObserver
| Win32Observer
| Win32IOCObserver
| InotifyObserver
| FSEventsObserver
| DefaultObserver.

(** What the commands import besides the platform: the two built-in
    tricks, the import of an observer class, which fails where the class is
    not available, the [generate_yaml] method of a trick class, and
    [yaml.dump]. *)
Class Commands `{Platform} : Type := {
  LoggerTrick : list string -> list string -> bool -> Result Handler;
  ShellCommandTrick : option string -> list string -> list string -> bool -> Result Handler;
  import_observer : ObserverClass -> Result unit;
  generate_yaml : TrickClass -> Result string;
  yaml_dump : PyVal -> string
}.

(** Standard output and the files written, each with its content. *)
Record Outputs : Type := {
  stdout : string;
  disk : list (string * string)
}.

Fixpoint file_content (path : string) (d : list (string * string)) : option string :=
  match d with
  | [] => None
  | (p, content) :: rest => if String.eqb p path then Some content else file_content path rest
  end.

(** [open(path, 'ab').write(text)]: the text goes after what the file
    holds; a file that is not there is created. *)
Fixpoint append_to (path text : string) (d : list (string * string))
  : list (string * string) :=
  match d with
  | [] => [(path, text)]
  | (p, content) :: rest =>
      if String.eqb p path then (p, content +:+ text) :: rest
      else (p, content) :: append_to path text rest
  end.

Definition newline : string := String (ascii_of_nat 10) EmptyString.

Section CommandsModel.
Context `{Commands}.

Local Notation "'do' x <- m ; k" := (bind m (fun x => k))
  (at level 10, x name, m at level 100, k at level 200).
Local Notation "m ;; k" := (bind m (fun _ => k))
  (at level 100, k at level 200, right associativity).

(** The arguments of [tricks_generate_yaml]. *)
Record YamlArgs : Type := {
  trick_paths : list string;
  yaml_python_path : string;
  append_to_file : option string;
  append_only : bool
}.

(** The loop of [tricks_generate_yaml]: what the [StringIO] holds in the
    end. *)
Definition generate_content (paths : list string) : M string :=
  for_fold paths EmptyString (fun output trick_path =>
    do TrickClass <- call_load_class trick_path;
    do text <- lift (generate_yaml TrickClass);
    ret (output +:+ text)).

(** The header of a tricks file. *)
Definition yaml_header (python_paths : list string) : string :=
  yaml_dump (VDict [(CONFIG_KEY_PYTHON_PATH, VList (map VStr python_paths))])
  +:+ CONFIG_KEY_TRICKS +:+ ":" +:+ newline.

(** The end of [tricks_generate_yaml]: where the content goes. *)
Definition write_content (args : YamlArgs) (header content : string) (out : Outputs)
  : Outputs :=
  match append_to_file args with
  | None =>
      let content := if negb (append_only args) then header +:+ content else content in
      {| stdout := stdout out +:+ content; disk := disk out |}
  | Some path =>
      let content :=
        match file_content path (disk out) with
        | None => header +:+ content
        | Some _ => content
        end in
      {| stdout := stdout out; disk := append_to path content (disk out) |}
  end.

(** [tricks_generate_yaml(args)]; nothing is written before every class
    has given its text. *)
Definition tricks_generate_yaml (args : YamlArgs) (out : Outputs)
  : World -> Result unit * World * Outputs :=
  fun w =>
    let python_paths := path_split (yaml_python_path args) os_path_sep in
    match (add_to_sys_path (VList (map VStr python_paths)) 0 ;;
           generate_content (trick_paths args)) w with
    | (Ok content, w') =>
        (Ok tt, w', write_content args (yaml_header python_paths) content out)
    | (Raise e, w') => (Raise e, w', out)
    | (Blocks, w') => (Blocks, w', out)
    end.

(** The arguments of [log]. *)
Record LogArgs : Type := {
  log_directories : list string;
  log_patterns : string;
  log_ignore_patterns : string;
  log_ignore_directories : bool;
  log_recursive : bool;
  debug_force_polling : bool;
  debug_force_kqueue : bool;
  debug_force_win32 : bool;
  debug_force_win32ioc : bool;
  debug_force_fsevents : bool;
  debug_force_inotify : bool
}.

(** The [if]/[elif] chain of [log]: the class that is imported as
    [Observer]. *)
Definition log_observer_class (args : LogArgs) : ObserverClass :=
  if debug_force_polling args then PollingObserver
  else if debug_force_kqueue args then KqueueObserver
  else if debug_force_win32 args then Win32Observer
  else if debug_force_win32ioc args then Win32IOCObserver
  else if debug_force_inotify args then InotifyObserver
  else if debug_force_fsevents args then FSEventsObserver
  else DefaultObserver.

(** [log(args)] *)
Definition log (args : LogArgs) (interrupt : option nat) : M unit :=
  let '(patterns, ignore_patterns) :=
    parse_patterns (log_patterns args) (log_ignore_patterns args) in
  do event_handler <-
    lift (LoggerTrick patterns ignore_patterns (log_ignore_directories args));
  lift (import_observer (log_observer_class args)) ;;
  do observer <- Observer;
  observe_with observer (IdName "logger") event_handler
    (log_directories args) (log_recursive args) interrupt.

(** The arguments of [shell_command]. *)
Record ShellArgs : Type := {
  shell_directories : list string;
  command : option string;
  shell_patterns : string;
  shell_ignore_patterns : string;
  shell_ignore_directories : bool;
  shell_recursive : bool
}.

(** [if not args.command: args.command = None] *)
Definition normalized_command (c : option string) : option string :=
  match c with
  | None | Some EmptyString => None
  | Some text => Some text
  end.

(** [shell_command(args)] *)
Definition shell_command (args : ShellArgs) (interrupt : option nat) : M unit :=
  let command := normalized_command (command args) in
  let '(patterns, ignore_patterns) :=
    parse_patterns (shell_patterns args) (shell_ignore_patterns args) in
  do event_handler <-
    lift (ShellCommandTrick command patterns ignore_patterns
            (shell_ignore_directories args));
  do observer <- Observer;
  observe_with observer (IdName "shell-command") event_handler
    (shell_directories args) (shell_recursive args) interrupt.

End CommandsModel.

(** ** What the other properties speak of *)

(** The number of occurrences of [c] in [s]. *)
Fixpoint count_char (c : ascii) (s : string) : nat :=
  match s with
  | EmptyString => 0
  | String c' rest => (if Ascii.eqb c' c then 1 else 0) + count_char c rest
  end.

(** A value that is no sequence and no mapping. *)
Definition is_scalar (v : PyVal) : Prop :=
  match v with
  | VNone | VBool _ | VInt _ => True
  | VStr _ | VList _ | VTuple _ | VDict _ => False
  end.

Definition is_mapping (v : PyVal) : Prop :=
  match v with
  | VDict _ => True
  | _ => False
  end.

Definition is_type_error (e : Exn) : Prop :=
  match e with
  | TypeError _ => True
  | _ => False
  end.

Section ExpectedOfCommands.
Context `{Platform}.

(** The world once [items] are scheduled on observer [o], whose handle
    was [h], with the handlers made from them. *)
Definition after_scheduling (o : nat) (watch_path : string)
    (items : list (string * PyVal)) (handlers : list Handler)
    (h : ObserverHandle) (w : World) : World :=
  {| sys_path := sys_path w;
     uuid_clock := uuid_clock w + length items;
     heap := <[o := add_sessions h (sessions_from watch_path (uuid_clock w) handlers)]>
               (heap w);
     trace := trace w ++ schedule_events (sys_path w) o watch_path (uuid_clock w) items |}.

(** The session [observe_with] registers. *)
Definition watch_session (i : Identifier) (event_handler : Handler)
    (paths : list string) (rec : bool) : WatchSession :=
  {| identifier := i; handler := event_handler; root_paths := paths; recursive := rec |}.

(** The calls of [observe_with] before it sleeps, and after the
    interrupt. *)
Definition watch_calls (o : nat) (i : Identifier) (paths : list string) (rec : bool)
  : list Event :=
  [EvCall o (CallSchedule i paths rec); EvCall o CallStart].

Definition unwatch_calls (o : nat) (i : Identifier) : list Event :=
  [EvCall o (CallUnschedule (Some i)); EvCall o CallStop; EvCall o CallJoin].

(** [sys.path] as it was is still there, behind what was put in front. *)
Definition keeps_search_path (w w' : World) : Prop :=
  exists front, sys_path w' = front ++ sys_path w.

End ExpectedOfCommands.

(** The texts joined with nothing between them. *)
Fixpoint join_all (texts : list string) : string :=
  match texts with
  | [] => EmptyString
  | text :: rest => text +:+ join_all rest
  end.

Section ExpectedOfYaml.
Context `{Commands}.

(** A class found on the search path that gives its text. *)
Definition yields (search_path : list PyVal) (trick_path text : string) : Prop :=
  exists class,
    load_class search_path trick_path = Ok class /\
    generate_yaml class = Ok text.

(** A class that is not found, or that fails to give its text. *)
Definition yield_fails (search_path : list PyVal) (trick_path : string) (e : Exn)
  : Prop :=
  load_class search_path trick_path = Raise e \/
  exists class,
    load_class search_path trick_path = Ok class /\
    generate_yaml class = Raise e.

End ExpectedOfYaml.

(** ** A platform with tricks files of unusual shapes, and the commands *)

Module Shapes.

Definition documents : list (string * PyVal) :=
  [ ("/srv/none.yaml", VNone);
    ("/srv/chars.yaml",
     VDict [ ("python-path", VStr "ab"); ("tricks", VList []) ]);
    ("/srv/number.yaml",
     VDict [ ("python-path", VInt 3); ("tricks", VList []) ]);
    ("/srv/plain.yaml",
     VDict [ ("tricks", VList [ VDict [Demo.logger_item] ]) ]);
    ("/srv/empty.yaml",
     VDict [ ("tricks", VList []) ]) ].

Definition exists_file (path : string) : bool :=
  match dict_lookup path documents with
  | Some _ => true
  | None => false
  end.

Definition read (path : string) : Result string :=
  if exists_file path then Ok path else Raise (IOError path).

Definition decode (content : string) : Result PyVal :=
  match dict_lookup content documents with
  | Some v => Ok v
  | None => Ok VNone
  end.

Definition platform (fault : nat -> ObserverCall -> option Exn) : Platform := {|
  TrickClass := string;
  Handler := string * list PyVal * list (string * PyVal);
  os_path_sep := "/"%char;
  os_path_exists := exists_file;
  read_text_file := read;
  yaml_load := decode;
  get_parent_dir_path := Demo.demo_parent;
  load_class := Demo.demo_load_class;
  instantiate := Demo.demo_instantiate;
  observer_fault := fault
|}.

(** No call is refused. *)
Definition calm : Platform := platform (fun _ _ => None).

(** [start()] is refused on the first observer. *)
Definition no_start : Platform :=
  platform (fun o call =>
              match o, call with
              | 0, CallStart => Some (ObserverError "primitive failed")
              | _, _ => None
              end).

Definition world (P : Platform) : @World P :=
  {| sys_path := [VStr "/opt/tricks"; VStr "/usr/lib/python"]; uuid_clock := 0;
     heap := []; trace := [] |}.

Definition logger_trick (patterns ignore_patterns : list string)
    (ignore_directories : bool)
  : Result (string * list PyVal * list (string * PyVal)) :=
  Ok ("LoggerTrick",
      [VList (map VStr patterns); VList (map VStr ignore_patterns);
       VBool ignore_directories], []).

Definition shell_trick (given : option string) (patterns ignore_patterns : list string)
    (ignore_directories : bool)
  : Result (string * list PyVal * list (string * PyVal)) :=
  Ok ("ShellCommandTrick",
      [match given with Some text => VStr text | None => VNone end;
       VList (map VStr patterns); VList (map VStr ignore_patterns);
       VBool ignore_directories], []).

Definition import_class (class : ObserverClass) : Result unit :=
  match class with
  | PollingObserver | InotifyObserver | DefaultObserver => Ok tt
  | KqueueObserver | Win32Observer | Win32IOCObserver | FSEventsObserver =>
      Raise (ImportError "observer")
  end.

Definition class_text (class : string) : Result string :=
  Ok ("- " +:+ class +:+ ":" +:+ newline).

Definition dump (v : PyVal) : string :=
  match v with
  | VDict [(key, VList l)] =>
      key +:+ ": " +:+
      Str.join ","
        (map (fun x => match x with VStr text => text | _ => EmptyString end) l)
      +:+ newline
  | _ => EmptyString
  end.

(** The built-in tricks keep what they were made from; the observer
    classes of other systems cannot be imported; a class gives one line of
    text. *)
Definition tools : @Commands Demo.quiet :=
  @Build_Commands Demo.quiet logger_trick shell_trick import_class class_text dump.

Definition log_args : LogArgs := {|
  log_directories := ["/srv/a"];
  log_patterns := "*.py;*.txt";
  log_ignore_patterns := "";
  log_ignore_directories := false;
  log_recursive := true;
  debug_force_polling := false;
  debug_force_kqueue := false;
  debug_force_win32 := false;
  debug_force_win32ioc := false;
  debug_force_fsevents := false;
  debug_force_inotify := false
|}.

Definition kqueue_args : LogArgs := {|
  log_directories := ["/srv/a"];
  log_patterns := "*";
  log_ignore_patterns := "";
  log_ignore_directories := false;
  log_recursive := false;
  debug_force_polling := false;
  debug_force_kqueue := true;
  debug_force_win32 := false;
  debug_force_win32ioc := false;
  debug_force_fsevents := false;
  debug_force_inotify := true
|}.

Definition shell_args : ShellArgs := {|
  shell_directories := ["/srv/a"];
  command := Some EmptyString;
  shell_patterns := "*";
  shell_ignore_patterns := "*.pyc";
  shell_ignore_directories := true;
  shell_recursive := false
|}.

Definition yaml_args (to_file : option string) (only : bool) (classes : list string)
  : YamlArgs := {|
  trick_paths := classes;
  yaml_python_path := ".";
  append_to_file := to_file;
  append_only := only
|}.

Definition blank : Outputs := {| stdout := EmptyString; disk := [] |}.

End Shapes.

(** * Properties *)

(** ** [str.split] *)

Module StrFacts.

Lemma split_nonempty sep s : Str.split sep s <> [].
Proof.
destruct s as [|c rest]; simpl; [discriminate|].
destruct (Ascii.eqb c sep); [discriminate|].
destruct (Str.split sep rest); discriminate.
Qed.

Lemma join_split sep s : Str.join sep (Str.split sep s) = s.
Proof.
induction s as [|c rest IH]; simpl; [reflexivity|].
destruct (Ascii.eqb c sep) eqn:E.
- apply Ascii.eqb_eq in E. subst c.
  pose proof (split_nonempty sep rest) as Hne.
  destruct (Str.split sep rest) as [|p ps]; [congruence|].
  simpl in *. now rewrite IH.
- destruct (Str.split sep rest) as [|p ps] eqn:Es.
  + now apply split_nonempty in Es.
  + simpl in *. destruct ps; simpl in *; now rewrite <- IH.
Qed.

Lemma split_no_sep sep s :
Forall (fun piece => Str.has_char sep piece = false) (Str.split sep s).
Proof.
induction s as [|c rest IH]; simpl.
- repeat constructor.
- destruct (Ascii.eqb c sep) eqn:E.
  + constructor; [reflexivity | exact IH].
  + destruct (Str.split sep rest) as [|p ps].
    * repeat constructor. simpl. now rewrite E.
    * inversion IH; subst. constructor; [|assumption].
      simpl. now rewrite E.
Qed.

Lemma split_eq_empty_piece sep s : Str.split sep s = [EmptyString] -> s = EmptyString.
Proof.
intros H. rewrite <- (join_split sep s), H. reflexivity.
Qed.

End StrFacts.

(** ** [parse_patterns] *)

Example parse_patterns_ex1 :
  parse_patterns "*.py;*.txt" "*.pyc;" = (["*.py"; "*.txt"], ["*.pyc"; ""]).
Proof. reflexivity. Qed.

Example parse_patterns_ex2 : parse_patterns "*" "" = (["*"], []).
Proof. reflexivity. Qed.

(** C4: both specifications are cut at every [;] and nowhere else (joining
    the pieces with [;] gives the specification back and no piece holds a
    [;]); the ignore list is never [['']], and for the empty ignore
    specification it is the empty list. *)
Theorem parse_patterns_splits_on_semicolon :
  forall patterns_spec ignore_patterns_spec : string,
    let '(patterns, ignore_patterns) :=
      parse_patterns patterns_spec ignore_patterns_spec in
    Str.join ";" patterns = patterns_spec /\
    Forall (fun p => Str.has_char ";" p = false) patterns /\
    Str.join ";" ignore_patterns = ignore_patterns_spec /\
    Forall (fun p => Str.has_char ";" p = false) ignore_patterns /\
    ignore_patterns <> [""] /\
    parse_patterns patterns_spec "" = (Str.split ";" patterns_spec, []).
Proof.
  intros p i. unfold parse_patterns, string_list_eqb.
  repeat split.
  - apply StrFacts.join_split.
  - apply StrFacts.split_no_sep.
  - case_bool_decide as E.
    + apply StrFacts.split_eq_empty_piece in E. now subst.
    + apply StrFacts.join_split.
  - case_bool_decide; [constructor | apply StrFacts.split_no_sep].
  - case_bool_decide as E; [discriminate | exact E].
Qed.

(** C10: only the ignore side is normalised: the empty include
    specification gives the one-element list [['']], whatever the ignore
    specification; the empty ignore specification gives the empty list. *)
Theorem parse_patterns_empty_include_asymmetric :
  forall ignore_patterns_spec patterns_spec : string,
    fst (parse_patterns "" ignore_patterns_spec) = [""] /\
    snd (parse_patterns patterns_spec "") = [] /\
    parse_patterns "" "" = ([""], []).
Proof.
  intros i p. repeat split.
Qed.


(** ** The computations *)

Section MonadFacts.
Context `{Platform}.

Lemma bind_ok {A B} (m : M A) (k : A -> M B) w a w1 :
  m w = (Ok a, w1) -> bind m k w = k a w1.
Proof. intros E. unfold bind. now rewrite E. Qed.

Lemma bind_raise {A B} (m : M A) (k : A -> M B) w e w1 :
  m w = (Raise e, w1) -> bind m k w = (Raise e, w1).
Proof. intros E. unfold bind. now rewrite E. Qed.

Lemma bind_ok_inv {A B} (m : M A) (k : A -> M B) w b w' :
  bind m k w = (Ok b, w') ->
  exists a w1, m w = (Ok a, w1) /\ k a w1 = (Ok b, w').
Proof.
  unfold bind. destruct (m w) as [[a| |] w1]; intros E; try discriminate.
  now exists a, w1.
Qed.

Lemma for_each_app {A} (l1 l2 : list A) (body : A -> M unit) w :
  for_each (l1 ++ l2) body w = bind (for_each l1 body) (fun _ => for_each l2 body) w.
Proof.
  revert w. induction l1 as [|x l1 IH]; intros w; simpl.
  - reflexivity.
  - unfold bind. destruct (body x w) as [[[]| |] w1]; try reflexivity.
    rewrite IH. reflexivity.
Qed.

Lemma observer_call_ok {A} o call (step : ObserverHandle -> Result (A * ObserverHandle))
    w h a h' :
  heap w !! o = Some h ->
  observer_fault o call = None ->
  step h = Ok (a, h') ->
  observer_call o call step w =
    (Ok a, set_heap (<[o:=h']> (heap w)) (log_event (EvCall o call) w)).
Proof.
  intros Hh Hf Hs. unfold observer_call. simpl. now rewrite Hh, Hf, Hs.
Qed.

Lemma observer_call_fault {A} o call (step : ObserverHandle -> Result (A * ObserverHandle))
    w h e :
  heap w !! o = Some h ->
  observer_fault o call = Some e ->
  observer_call o call step w = (Raise e, log_event (EvCall o call) w).
Proof.
  intros Hh Hf. unfold observer_call. simpl. now rewrite Hh, Hf.
Qed.

End MonadFacts.

(** ** [schedule_tricks] *)

Section ScheduleFacts.
Context `{Platform}.

Lemma schedule_trick_ok o watch_path name d event_handler w h :
  heap w !! o = Some h ->
  accepts_sessions h ->
  (forall i, observer_fault o (CallSchedule i [watch_path] true) = None) ->
  builds (sys_path w) (name, VDict d) event_handler ->
  schedule_trick o watch_path (name, VDict d) w =
    (Ok tt,
     {| sys_path := sys_path w;
        uuid_clock := S (uuid_clock w);
        heap := <[o := add_sessions h [trick_session watch_path (uuid_clock w) event_handler]]>
                  (heap w);
        trace := trace w ++ resolve_events (sys_path w) (name, VDict d) ++
                 [EvCall o (CallSchedule (IdUuid (uuid_clock w)) [watch_path] true)] |}).
Proof.
  intros Hh Hacc Hf Hb. inversion Hb as [n d' class hd Hload Hinst]; subst.
  unfold schedule_trick, check_trick_has_key, call_load_class, uuid1_hex,
    observer_schedule, resolve_events, dict_get in *.
  unfold bind, lift, emit, ret, py_contains, py_get, observer_call,
    missing_key_warnings, add_sessions, trick_session, do_schedule,
    set_heap, set_uuid_clock, log_event.
  simpl.
  destruct (dict_lookup "kwargs" d), (dict_lookup "args" d); simpl;
    rewrite Hload, Hinst, Hh, Hf;
    destruct Hacc as [-> | ->]; simpl;
    rewrite <- ?app_assoc; reflexivity.
Qed.

Lemma schedule_trick_fails o watch_path name d e w :
  fails_with (sys_path w) (name, VDict d) e ->
  schedule_trick o watch_path (name, VDict d) w =
    (Raise e,
     {| sys_path := sys_path w;
        uuid_clock := uuid_clock w;
        heap := heap w;
        trace := trace w ++ resolve_events (sys_path w) (name, VDict d) |}).
Proof.
  intros Hfail.
  unfold schedule_trick, check_trick_has_key, call_load_class, uuid1_hex,
    observer_schedule, resolve_events, dict_get in *.
  unfold bind, lift, emit, ret, py_contains, py_get, observer_call,
    missing_key_warnings, set_heap, set_uuid_clock, log_event.
  inversion Hfail as [n d' e' Hload | n d' class e' Hload Hinst]; subst;
    unfold dict_get in *; simpl;
    destruct (dict_lookup "kwargs" d), (dict_lookup "args" d); simpl;
      rewrite Hload; try rewrite Hinst; simpl;
      rewrite <- ?app_assoc; reflexivity.
Qed.

Lemma sessions_from_app watch_path stamp hs1 hs2 :
  sessions_from watch_path stamp (hs1 ++ hs2) =
  sessions_from watch_path stamp hs1 ++
  sessions_from watch_path (stamp + length hs1) hs2.
Proof.
  revert stamp. induction hs1 as [|hd hs1 IH]; intros stamp; simpl.
  - now rewrite Nat.add_0_r.
  - rewrite IH. do 3 f_equal. lia.
Qed.

Lemma sessions_from_length watch_path stamp hs :
  length (sessions_from watch_path stamp hs) = length hs.
Proof.
  revert stamp. induction hs as [|hd hs IH]; intros stamp; simpl; [reflexivity|].
  now rewrite IH.
Qed.

Lemma sessions_from_stamps watch_path stamp hs :
  Forall (fun s => exists n, identifier s = IdUuid n /\
                             stamp <= n < stamp + length hs /\
                             root_paths s = [watch_path] /\ recursive s = true)
         (sessions_from watch_path stamp hs).
Proof.
  revert stamp. induction hs as [|hd hs IH]; intros stamp; simpl; constructor.
  - exists stamp. simpl. repeat split; lia.
  - eapply Forall_impl; [apply IH|].
    intros s (n & Hn & Hr & Hp). exists n. repeat split; try tauto; lia.
Qed.

Lemma sessions_from_NoDup watch_path stamp hs :
  NoDup (map identifier (sessions_from watch_path stamp hs)).
Proof.
  revert stamp. induction hs as [|hd hs IH]; intros stamp; simpl; constructor.
  - intros Hin. apply list_elem_of_In, in_map_iff in Hin.
    destruct Hin as (s & Hid & Hin).
    pose proof (sessions_from_stamps watch_path (S stamp) hs) as Hall.
    rewrite List.Forall_forall in Hall.
    destruct (Hall s Hin) as (n & Hn & Hr & _).
    rewrite Hn in Hid. injection Hid as ->. lia.
  - apply IH.
Qed.

(** The loop over the items of the tricks: all of them build. *)
Lemma schedule_items_ok o watch_path items handlers :
  (forall i, observer_fault o (CallSchedule i [watch_path] true) = None) ->
  forall w h,
    heap w !! o = Some h ->
    accepts_sessions h ->
    Forall2 (builds (sys_path w)) items handlers ->
    for_each items (schedule_trick o watch_path) w =
      (Ok tt,
       {| sys_path := sys_path w;
          uuid_clock := uuid_clock w + length items;
          heap := <[o := add_sessions h (sessions_from watch_path (uuid_clock w) handlers)]>
                    (heap w);
          trace := trace w ++
                   schedule_events (sys_path w) o watch_path (uuid_clock w) items |}).
Proof.
  intros Hf w h Hh Hacc Hall.
  remember (sys_path w) as sp eqn:Hsp. revert w h Hh Hacc Hsp.
  induction Hall as [|item hd items handlers Hb Hall IH]; intros w h Hh Hacc Hsp; simpl.
  - unfold ret, add_sessions. rewrite !app_nil_r, Nat.add_0_r.
    rewrite list_insert_id by (destruct h; exact Hh).
    destruct w; simpl in *; subst; reflexivity.
  - subst sp. inversion Hb as [name d class hd' Hload Hinst]; subst.
    erewrite bind_ok by (eapply schedule_trick_ok; eauto).
    assert (Hlt : o < length (heap w)) by (eapply lookup_lt_Some; eauto).
    rewrite (IH _ (add_sessions h [trick_session watch_path (uuid_clock w) hd]));
      simpl.
    + unfold add_sessions. simpl.
      rewrite list_insert_insert_eq, <- !app_assoc. simpl.
      rewrite Nat.add_succ_r. reflexivity.
    + now apply list_lookup_insert_eq.
    + exact Hacc.
    + reflexivity.
Qed.

(** The loop stops at the first item that does not build. *)
Lemma schedule_items_fails o watch_path pre handlers bad post e :
  (forall i, observer_fault o (CallSchedule i [watch_path] true) = None) ->
  forall w h,
    heap w !! o = Some h ->
    accepts_sessions h ->
    Forall2 (builds (sys_path w)) pre handlers ->
    fails_with (sys_path w) bad e ->
    for_each (pre ++ bad :: post) (schedule_trick o watch_path) w =
      (Raise e,
       {| sys_path := sys_path w;
          uuid_clock := uuid_clock w + length pre;
          heap := <[o := add_sessions h (sessions_from watch_path (uuid_clock w) handlers)]>
                    (heap w);
          trace := trace w ++
                   schedule_events (sys_path w) o watch_path (uuid_clock w) pre ++
                   resolve_events (sys_path w) bad |}).
Proof.
  intros Hf w h Hh Hacc Hall Hbad.
  rewrite for_each_app.
  erewrite bind_ok by (eapply schedule_items_ok; eauto).
  simpl. erewrite bind_raise; [reflexivity|].
  inversion Hbad; subst;
    (erewrite schedule_trick_fails; [simpl; now rewrite <- app_assoc | exact Hbad]).
Qed.

(** The two nested loops visit the items of the mappings in order. *)
Lemma schedule_tricks_items o dicts watch_path w :
  schedule_tricks o (VList (map VDict dicts)) watch_path w =
  for_each (concat dicts) (schedule_trick o watch_path) w.
Proof.
  unfold schedule_tricks. unfold bind at 1. simpl.
  revert w. induction dicts as [|d dicts IH]; intros w; simpl; [reflexivity|].
  rewrite for_each_app. unfold bind. simpl.
  destruct (for_each d (schedule_trick o watch_path) w) as [[[]| |] w1];
    try reflexivity.
  apply IH.
Qed.

End ScheduleFacts.

Section ScheduleClaims.
Context `{Platform}.

(** C5: the tricks of a list whose items all build are scheduled in the
    listed order, one registration each, on the observer given: the k-th
    item gets the session with the handler built from it, the identifier
    made from the k-th clock reading, the root paths [[watch_path]] and
    the recursive flag set.  The new identifiers are pairwise distinct and
    none was made before; a list of N one-key mappings adds N sessions. *)
Theorem schedule_tricks_registers_each_trick :
  forall (o : nat) (dicts : list (list (string * PyVal)))
         (handlers : list Handler) (watch_path : string)
         (w : World) (h : ObserverHandle),
    heap w !! o = Some h ->
    accepts_sessions h ->
    (forall i, observer_fault o (CallSchedule i [watch_path] true) = None) ->
    Forall2 (builds (sys_path w)) (concat dicts) handlers ->
    let new := sessions_from watch_path (uuid_clock w) handlers in
    exists w',
      schedule_tricks o (VList (map VDict dicts)) watch_path w = (Ok tt, w') /\
      heap w' = <[o := add_sessions h new]> (heap w) /\
      trace w' = trace w ++
                 schedule_events (sys_path w) o watch_path (uuid_clock w) (concat dicts) /\
      Forall2 (fun s event_handler => handler s = event_handler) new handlers /\
      Forall (fun s => root_paths s = [watch_path] /\ recursive s = true) new /\
      Forall (fun s => exists n, identifier s = IdUuid n /\
                                 uuid_clock w <= n < uuid_clock w') new /\
      NoDup (map identifier new) /\
      length new = length (concat dicts) /\
      (Forall (fun d => length d = 1) dicts -> length new = length dicts).
Proof.
  intros o dicts handlers watch_path w h Hh Hacc Hf Hall new.
  eexists. split.
  { rewrite schedule_tricks_items. eapply schedule_items_ok; eauto. }
  simpl. pose proof (Forall2_length _ _ _ Hall) as Hlen.
  pose proof (sessions_from_stamps watch_path (uuid_clock w) handlers) as Hst.
  repeat split.
  - subst new. clear. generalize (uuid_clock w).
    induction handlers as [|hd hs IH]; intros n; simpl; constructor; auto.
  - eapply Forall_impl; [exact Hst|]. intros s (n & _ & _ & Hp & Hr). auto.
  - eapply Forall_impl; [exact Hst|]. intros s (n & Hn & Hr & _).
    exists n. split; [exact Hn | lia].
  - apply sessions_from_NoDup.
  - subst new. rewrite sessions_from_length. lia.
  - intros Hone. subst new. rewrite sessions_from_length, <- Hlen.
    clear -Hone. induction Hone as [|d ds Hd Hone IH]; simpl; [reflexivity|].
    rewrite length_app, IH, Hd. reflexivity.
Qed.

(** C1, as the code has it: a trick whose class is not found, or whose
    class does not accept its arguments, ends [schedule_tricks] with that
    error.  The tricks listed before it stay registered; that trick and
    the tricks after it are not registered, and the only events are those
    of the tricks before it and the search for its class: no warning
    tells of the failure.  When the trick is the last of N one-key
    mappings, N-1 sessions are registered. *)
Theorem schedule_tricks_stops_at_failing_trick :
  forall (o : nat) (dicts : list (list (string * PyVal)))
         (pre post : list (string * PyVal)) (bad : string * PyVal)
         (handlers : list Handler) (e : Exn) (watch_path : string)
         (w : World) (h : ObserverHandle),
    heap w !! o = Some h ->
    accepts_sessions h ->
    (forall i, observer_fault o (CallSchedule i [watch_path] true) = None) ->
    concat dicts = pre ++ bad :: post ->
    Forall2 (builds (sys_path w)) pre handlers ->
    fails_with (sys_path w) bad e ->
    let new := sessions_from watch_path (uuid_clock w) handlers in
    exists w',
      schedule_tricks o (VList (map VDict dicts)) watch_path w = (Raise e, w') /\
      heap w' = <[o := add_sessions h new]> (heap w) /\
      length new = length pre /\
      trace w' = trace w ++
                 schedule_events (sys_path w) o watch_path (uuid_clock w) pre ++
                 resolve_events (sys_path w) bad /\
      (Forall (fun d => length d = 1) dicts -> post = [] ->
       length new = length dicts - 1).
Proof.
  intros o dicts pre post bad handlers e watch_path w h Hh Hacc Hf Hcat Hall Hbad new.
  eexists. split.
  { rewrite schedule_tricks_items, Hcat. eapply schedule_items_fails; eauto. }
  simpl. pose proof (Forall2_length _ _ _ Hall) as Hlen.
  subst new. rewrite sessions_from_length.
  repeat split; try lia.
  intros Hone ->.
  assert (Hn : length (concat dicts) = length dicts).
  { clear -Hone. induction Hone as [|d ds Hd Hone IH]; simpl; [reflexivity|].
    rewrite length_app, IH, Hd. reflexivity. }
  rewrite Hcat, length_app in Hn. simpl in Hn. lia.
Qed.

(** C6: a trick whose mapping lacks [args] or [kwargs] is not an error:
    a warning is logged for each key that is missing ([kwargs] first),
    the class is called with the empty tuple for missing [args] and the
    empty dict for missing [kwargs], and the handler is registered. *)
Theorem schedule_tricks_defaults_missing_keys :
  forall (o : nat) (name : string) (d : list (string * PyVal))
         (class : TrickClass) (event_handler : Handler) (watch_path : string)
         (w : World) (h : ObserverHandle),
    heap w !! o = Some h ->
    accepts_sessions h ->
    (forall i, observer_fault o (CallSchedule i [watch_path] true) = None) ->
    load_class (sys_path w) name = Ok class ->
    let trick_kwargs :=
      match dict_lookup "kwargs" d with Some given => given | None => VDict [] end in
    let trick_args :=
      match dict_lookup "args" d with Some given => given | None => VTuple [] end in
    instantiate class trick_args trick_kwargs = Ok event_handler ->
    exists w',
      schedule_tricks o (VList [VDict [(name, VDict d)]]) watch_path w = (Ok tt, w') /\
      trace w' = trace w ++
                 match dict_lookup "kwargs" d with
                 | Some _ => []
                 | None => [EvWarn "kwargs" name]
                 end ++
                 match dict_lookup "args" d with
                 | Some _ => []
                 | None => [EvWarn "args" name]
                 end ++
                 [EvLoadClass (sys_path w) name;
                  EvCall o (CallSchedule (IdUuid (uuid_clock w)) [watch_path] true)] /\
      heap w' = <[o := add_sessions h
                         [{| identifier := IdUuid (uuid_clock w);
                             handler := event_handler;
                             root_paths := [watch_path];
                             recursive := true |}]]> (heap w).
Proof.
  intros o name d class hd watch_path w h Hh Hacc Hf Hload tk ta Hinst.
  assert (Hb : builds (sys_path w) (name, VDict d) hd).
  { econstructor; [exact Hload | exact Hinst]. }
  eexists. split.
  { rewrite (schedule_tricks_items o [[(name, VDict d)]]). simpl.
    erewrite bind_ok by (eapply schedule_trick_ok; eauto). reflexivity. }
  simpl. split; [|reflexivity].
  unfold resolve_events. simpl. now rewrite <- !app_assoc.
Qed.

End ScheduleClaims.

(** ** What scheduling leaves alone *)

Section Frame.
Context `{Platform}.

Lemma schedules_on_refl o w : schedules_on o w w.
Proof.
  repeat split; auto. exists []. split; [now rewrite app_nil_r | constructor].
Qed.

Lemma schedules_on_trans o w1 w2 w3 :
  schedules_on o w1 w2 -> schedules_on o w2 w3 -> schedules_on o w1 w3.
Proof.
  intros (Hp1 & Hl1 & Ho1 & Hs1 & evs1 & Ht1 & He1)
         (Hp2 & Hl2 & Ho2 & Hs2 & evs2 & Ht2 & He2).
  repeat split; try congruence.
  - intros j Hj. rewrite Ho2, Ho1; auto.
  - exists (evs1 ++ evs2). split.
    + now rewrite Ht2, Ht1, app_assoc.
    + apply Forall_app. split; [exact He1|]. now rewrite <- Hp1.
Qed.

Lemma preserves_ret {A} o (a : A) : preserves (schedules_on o) (ret a).
Proof. intros w r w' E. injection E as <- <-. apply schedules_on_refl. Qed.

Lemma preserves_lift {A} o (x : Result A) : preserves (schedules_on o) (lift x).
Proof. intros w r w' E. injection E as <- <-. apply schedules_on_refl. Qed.

Lemma preserves_bind {A B} o (m : M A) (k : A -> M B) :
  preserves (schedules_on o) m ->
  (forall a, preserves (schedules_on o) (k a)) ->
  preserves (schedules_on o) (bind m k).
Proof.
  intros Hm Hk w r w' E. unfold bind in E.
  destruct (m w) as [[a|e|] w1] eqn:Em.
  - eapply schedules_on_trans; [eapply Hm | eapply Hk]; eauto.
  - injection E as <- <-. eapply Hm; eauto.
  - injection E as <- <-. eapply Hm; eauto.
Qed.

Lemma preserves_for_each {A} o (l : list A) (body : A -> M unit) :
  (forall x, preserves (schedules_on o) (body x)) ->
  preserves (schedules_on o) (for_each l body).
Proof.
  intros Hb. induction l as [|x l IH]; simpl.
  - apply preserves_ret.
  - apply preserves_bind; auto.
Qed.

Lemma preserves_one_event {A} o (m : M A) (e : Event) :
  (forall w r w', m w = (r, w') ->
     sys_path w' = sys_path w /\ length (heap w') = length (heap w) /\
     (forall j, j <> o -> heap w' !! j = heap w !! j) /\
     state <$> heap w' !! o = state <$> heap w !! o /\
     trace w' = trace w ++ [e] /\ scheduling_event (sys_path w) o e) ->
  preserves (schedules_on o) m.
Proof.
  intros Hm w r w' E. destruct (Hm _ _ _ E) as (? & ? & ? & ? & ? & ?).
  repeat split; auto. exists [e]. split; auto.
Qed.

Lemma preserves_warn o key name : preserves (schedules_on o) (emit (EvWarn key name)).
Proof.
  apply preserves_one_event with (e := EvWarn key name).
  intros w r w' E. injection E as <- <-. simpl. repeat split; auto.
Qed.

Lemma preserves_check o name trick key :
  preserves (schedules_on o) (check_trick_has_key name trick key).
Proof.
  unfold check_trick_has_key. apply preserves_bind; [apply preserves_lift|].
  intros []; simpl; [apply preserves_ret | apply preserves_warn].
Qed.

Lemma preserves_load_class o name : preserves (schedules_on o) (call_load_class name).
Proof.
  intros w r w' E. unfold call_load_class in E. injection E as <- <-.
  repeat split; auto. exists [EvLoadClass (sys_path w) name].
  split; [reflexivity|]. repeat constructor.
Qed.

Lemma preserves_uuid1 o : preserves (schedules_on o) uuid1_hex.
Proof.
  intros w r w' E. unfold uuid1_hex in E. injection E as <- <-.
  repeat split; auto. exists []. split; [now rewrite app_nil_r | constructor].
Qed.

Lemma preserves_schedule o i event_handler paths rec :
  preserves (schedules_on o) (observer_schedule o i event_handler paths rec).
Proof.
  apply preserves_one_event with (e := EvCall o (CallSchedule i paths rec)).
  intros w r w' E. unfold observer_schedule, observer_call in E. simpl in E.
  destruct (heap w !! o) as [h|] eqn:Hh in E;
    [|injection E as <- <-; simpl; repeat split; auto].
  destruct (observer_fault o _);
    [injection E as <- <-; simpl; repeat split; auto|].
  unfold do_schedule in E.
  destruct (state h) eqn:Hs; injection E as <- <-; simpl;
    repeat split; auto using length_insert, list_lookup_insert_ne.
  all: rewrite list_lookup_insert_eq by (eapply lookup_lt_Some; eauto);
    rewrite Hh; simpl; now rewrite Hs.
Qed.

Lemma preserves_schedule_trick o watch_path item :
  preserves (schedules_on o) (schedule_trick o watch_path item).
Proof.
  destruct item as [name value]. unfold schedule_trick.
  repeat first
    [ apply preserves_check | apply preserves_lift | apply preserves_ret
    | apply preserves_load_class | apply preserves_uuid1
    | apply preserves_schedule
    | apply preserves_bind; [|intros ?] ].
Qed.

Lemma preserves_schedule_tricks o tricks watch_path :
  preserves (schedules_on o) (schedule_tricks o tricks watch_path).
Proof.
  unfold schedule_tricks. apply preserves_bind; [apply preserves_lift|].
  intros l. apply preserves_for_each. intros trick.
  apply preserves_bind; [apply preserves_lift|].
  intros items. apply preserves_for_each. apply preserves_schedule_trick.
Qed.

End Frame.

(** ** Starting the observers *)

Section StartFacts.
Context `{Platform}.

Lemma for_fold_app {A S} (l1 l2 : list A) (acc : S) (body : S -> A -> M S) w :
  for_fold (l1 ++ l2) acc body w =
  bind (for_fold l1 acc body) (fun acc' => for_fold l2 acc' body) w.
Proof.
  revert acc w. induction l1 as [|x l1 IH]; intros acc w; simpl.
  - reflexivity.
  - unfold bind. destruct (body acc x w) as [[acc'| |] w1]; try reflexivity.
    rewrite IH. reflexivity.
Qed.

Lemma insert_reversed_prepends (l : list PyVal) w :
  for_each (rev l)
    (fun path w => (Ok tt, set_sys_path (list_insert_at 0 path (sys_path w)) w)) w =
  (Ok tt, set_sys_path (l ++ sys_path w) w).
Proof.
  revert w. induction l as [|x l IH]; intros w; simpl.
  - destruct w; reflexivity.
  - rewrite for_each_app. erewrite bind_ok by apply IH. reflexivity.
Qed.

Lemma add_to_sys_path_list (l : list PyVal) w :
  add_to_sys_path (VList l) 0 w = (Ok tt, set_sys_path (l ++ sys_path w) w).
Proof.
  unfold add_to_sys_path. unfold bind at 1. simpl. apply insert_reversed_prepends.
Qed.

(** [add_to_sys_path] touches nothing but [sys.path]. *)
Lemma add_to_sys_path_frame paths index w r w' :
  add_to_sys_path paths index w = (r, w') ->
  heap w' = heap w /\ trace w' = trace w /\ uuid_clock w' = uuid_clock w.
Proof.
  unfold add_to_sys_path, bind at 1, lift.
  destruct (py_reversed paths) as [l| |]; try (intros E; injection E as <- <-; auto).
  revert w. induction l as [|x l IH]; intros w; simpl.
  - intros E; injection E as <- <-; auto.
  - unfold bind. intros E. apply IH in E. simpl in E. exact E.
Qed.

Lemma load_config_ok tricks_file content config w :
  read_text_file tricks_file = Ok content ->
  yaml_load content = Ok config ->
  load_config tricks_file w = (Ok config, w).
Proof.
  intros Hr Hy. unfold load_config, bind, lift, ret. now rewrite Hr, Hy.
Qed.

(** A method call changes the handle it is made on and adds itself to the
    trace. *)
Lemma observer_call_frame {A} o call
    (step : ObserverHandle -> Result (A * ObserverHandle)) w r w' :
  observer_call o call step w = (r, w') ->
  sys_path w' = sys_path w /\
  trace w' = trace w ++ [EvCall o call] /\
  length (heap w') = length (heap w) /\
  (forall j, j <> o -> heap w' !! j = heap w !! j).
Proof.
  unfold observer_call. simpl.
  destruct (heap w !! o) as [h|]; [|intros E; injection E as <- <-; auto].
  destruct (observer_fault o call); [intros E; injection E as <- <-; auto|].
  destruct (step h) as [[a h']| |]; intros E; injection E as <- <-; simpl;
    repeat split; auto using length_insert, list_lookup_insert_ne.
Qed.

Lemma observer_start_ok_inv o w w' :
  observer_start o w = (Ok tt, w') ->
  is_running w' o.
Proof.
  unfold observer_start, observer_call. simpl.
  destruct (heap w !! o) as [h|] eqn:Hh; [|discriminate].
  destruct (observer_fault o CallStart); [discriminate|].
  unfold do_start. destruct (state h); try discriminate.
  intros E; injection E as <-. eexists. simpl. split.
  - apply list_lookup_insert_eq. eapply lookup_lt_Some; eauto.
  - reflexivity.
Qed.

Lemma start_tricks_file_unusable observers tricks_file e w :
  unusable tricks_file e ->
  start_tricks_file observers tricks_file w =
    (Raise e, set_heap (heap w ++ [idle_observer]) w).
Proof.
  intros [[Hex ->] | (Hex & -> & content & config & Hr & Hy & Hc)];
    unfold start_tricks_file, bind at 1, Observer; rewrite Hex; simpl.
  - reflexivity.
  - erewrite bind_ok by (eapply load_config_ok; eauto).
    unfold bind at 1, lift. rewrite Hc. reflexivity.
Qed.

(** The loop body once the document is decoded and has its tricks. *)
Lemma start_tricks_file_loaded observers tricks_file content d tricks w :
  os_path_exists tricks_file = true ->
  read_text_file tricks_file = Ok content ->
  yaml_load content = Ok (VDict d) ->
  dict_lookup CONFIG_KEY_TRICKS d = Some tricks ->
  start_tricks_file observers tricks_file w =
    bind
      match dict_lookup CONFIG_KEY_PYTHON_PATH d with
      | Some paths => add_to_sys_path paths 0
      | None => ret tt
      end
      (fun _ =>
         bind (schedule_tricks (length (heap w)) tricks (get_parent_dir_path tricks_file))
           (fun _ => bind (observer_start (length (heap w)))
              (fun _ => ret (observers ++ [length (heap w)]))))
      (set_heap (heap w ++ [idle_observer]) w).
Proof.
  intros Hex Hr Hy Ht.
  unfold start_tricks_file, bind at 1, Observer. rewrite Hex. simpl.
  erewrite bind_ok by (eapply load_config_ok; eauto).
  unfold CONFIG_KEY_TRICKS, CONFIG_KEY_PYTHON_PATH in *.
  unfold bind at 1, lift. simpl. rewrite Ht. simpl.
  unfold bind at 1. unfold bind at 1.
  destruct (dict_lookup "python-path" d) as [paths|]; reflexivity.
Qed.

(** A tricks file whose observer was started: the observer is the new
    one, it is running, and the observers made before are as they were. *)
Lemma start_tricks_file_ok_inv observers tricks_file w observers' w' :
  start_tricks_file observers tricks_file w = (Ok observers', w') ->
  observers' = observers ++ [length (heap w)] /\
  length (heap w') = S (length (heap w)) /\
  (forall j, j < length (heap w) -> heap w' !! j = heap w !! j) /\
  is_running w' (length (heap w)).
Proof.
  unfold start_tricks_file. intros E.
  apply bind_ok_inv in E as (o & w0 & Eo & E).
  unfold Observer in Eo. injection Eo as <- <-.
  destruct (os_path_exists tricks_file); simpl in E; [|discriminate].
  apply bind_ok_inv in E as (config & w1 & Ec & E).
  assert (w1 = set_heap (heap w ++ [idle_observer]) w) as ->.
  { unfold load_config, bind, lift, ret in Ec.
    destruct (read_text_file tricks_file); try discriminate.
    destruct (yaml_load a); try discriminate. now injection Ec as _ <-. }
  apply bind_ok_inv in E as (has_tricks & w1 & E1 & E).
  unfold lift in E1. injection E1 as E1 <-.
  destruct has_tricks; simpl in E; [|discriminate].
  apply bind_ok_inv in E as (tricks & w1 & E2 & E).
  unfold lift in E2. injection E2 as E2 <-.
  apply bind_ok_inv in E as (has_python_path & w1 & E3 & E).
  unfold lift in E3. injection E3 as E3 <-.
  apply bind_ok_inv in E as ([] & w1 & Ep & E).
  assert (Hw1 : heap w1 = heap w ++ [idle_observer]).
  { destruct has_python_path.
    - unfold bind, lift in Ep.
      destruct (py_getitem config CONFIG_KEY_PYTHON_PATH); try discriminate.
      now apply add_to_sys_path_frame in Ep as (-> & _).
    - now injection Ep as <-. }
  apply bind_ok_inv in E as ([] & w2 & Es & E).
  apply preserves_schedule_tricks in Es as (_ & Hl2 & Ho2 & _).
  apply bind_ok_inv in E as ([] & w3 & Est & E).
  injection E as <- <-.
  pose proof (observer_start_ok_inv _ _ _ Est) as Hrun.
  apply observer_call_frame in Est as (_ & _ & Hl3 & Ho3).
  rewrite Hw1 in *. rewrite length_app in Hl2. simpl in Hl2.
  repeat split; auto.
  - lia.
  - intros j Hj. rewrite Ho3, Ho2 by lia. now apply lookup_app_l.
Qed.

Lemma for_fold_start_ok_inv files :
  forall observers w observers' w',
    all_running w observers ->
    for_fold files observers start_tricks_file w = (Ok observers', w') ->
    all_running w' observers' /\
    length observers' = length observers + length files.
Proof.
  induction files as [|f files IH]; intros observers w observers' w' Hrun E; simpl in E.
  - injection E as <- <-. split; [exact Hrun | simpl; lia].
  - apply bind_ok_inv in E as (obs1 & w1 & E1 & E).
    apply start_tricks_file_ok_inv in E1 as (-> & Hl & Hold & Hnew).
    apply IH in E as (Hrun' & Hlen).
    + split; [exact Hrun'|]. rewrite Hlen, length_app. simpl. lia.
    + destruct Hrun as [Hnd Hall]. split.
      * apply NoDup_app. repeat split; auto using NoDup_singleton.
        intros o Ho Ho'. apply list_elem_of_singleton in Ho'. subst o.
        rewrite List.Forall_forall in Hall.
        apply list_elem_of_In, Hall in Ho. destruct Ho as (h & Hh & _).
        apply lookup_lt_Some in Hh. lia.
      * apply Forall_app. split; [|repeat constructor; exact Hnew].
        eapply Forall_impl; [exact Hall|].
        intros o (h & Hh & Hs). exists h. split; [|exact Hs].
        rewrite Hold; [exact Hh|]. eapply lookup_lt_Some; eauto.
Qed.

End StartFacts.

Section StartClaims.
Context `{Platform}.

(** The world [tricks_from] starts its first loop in. *)
Lemma tricks_from_first_error args before bad rest e observers interrupt w w1 w2 :
  files args = before ++ bad :: rest ->
  for_fold before [] start_tricks_file
    (set_sys_path (map VStr (path_split (python_path args) os_path_sep) ++ sys_path w) w)
    = (Ok observers, w1) ->
  start_tricks_file observers bad w1 = (Raise e, w2) ->
  tricks_from args interrupt w = (Raise e, w2).
Proof.
  intros Hfiles Hbefore Hbad. unfold tricks_from.
  erewrite bind_ok by apply add_to_sys_path_list.
  apply bind_raise. rewrite Hfiles, for_fold_app.
  erewrite bind_ok by exact Hbefore.
  simpl. now apply bind_raise.
Qed.

(** Once every file is started, [tricks_from] waits with the observers of
    the files, in their order, all of them running. *)
Lemma tricks_from_started args observers interrupt w w1 :
  for_fold (files args) [] start_tricks_file
    (set_sys_path (map VStr (path_split (python_path args) os_path_sep) ++ sys_path w) w)
    = (Ok observers, w1) ->
  tricks_from args interrupt w = wait_and_stop observers interrupt w1 /\
  all_running w1 observers /\
  length observers = length (files args).
Proof.
  intros Hstart. split.
  - unfold tricks_from.
    erewrite bind_ok by apply add_to_sys_path_list.
    erewrite bind_ok by exact Hstart. reflexivity.
  - apply for_fold_start_ok_inv in Hstart; [exact Hstart|].
    split; constructor.
Qed.

Lemma running_count_new_idle (w : World) :
  running_count (set_heap (heap w ++ [idle_observer]) w) = running_count w.
Proof.
  unfold running_count. simpl. rewrite List.filter_app, length_app. simpl. lia.
Qed.

(** C2, as the code has it: the files are taken one at a time, each
    observer being started before the next file is looked at.  When a file
    is missing or its document has no [tricks] key, the error is raised
    before the observer made for that file is started, and no later file
    is looked at; the observers of the files before it were started and
    are running when the error is raised.  No observer of the invocation
    is running only when the first file is the unusable one. *)
Theorem tricks_from_config_error_after_earlier_starts :
  forall (args : Args) (before : list string) (bad : string) (rest : list string)
         (e : Exn) (observers : list nat) (interrupt : option nat) (w w1 : World),
    files args = before ++ bad :: rest ->
    unusable bad e ->
    for_fold before [] start_tricks_file
      (set_sys_path (map VStr (path_split (python_path args) os_path_sep) ++ sys_path w) w)
      = (Ok observers, w1) ->
    let w' := set_heap (heap w1 ++ [idle_observer]) w1 in
    tricks_from args interrupt w = (Raise e, w') /\
    trace w' = trace w1 /\
    heap w' !! length (heap w1) = Some idle_observer /\
    length observers = length before /\
    NoDup observers /\
    Forall (is_running w') observers /\
    (before = [] -> running_count w' = running_count w).
Proof.
  intros args before bad rest e observers interrupt w w1 Hfiles Hbad Hbefore w'.
  split.
  { eapply tricks_from_first_error; eauto.
    now apply start_tricks_file_unusable. }
  split; [reflexivity|].
  split.
  { subst w'. simpl. rewrite lookup_app_r by lia.
    now rewrite Nat.sub_diag. }
  pose proof Hbefore as Hinv.
  apply for_fold_start_ok_inv in Hinv as ((Hnd & Hall) & Hlen);
    [|split; constructor].
  repeat split; auto.
  - eapply Forall_impl; [exact Hall|].
    intros o (h & Hh & Hs). exists h. split; [|exact Hs].
    subst w'. simpl. rewrite lookup_app_l; [exact Hh|].
    eapply lookup_lt_Some; eauto.
  - intros ->. simpl in Hbefore. injection Hbefore as _ <-.
    subst w'. rewrite running_count_new_idle. reflexivity.
Qed.

(** C9: a document that is a mapping without a [tricks] key makes
    [tricks_from] raise [NameError] for [input_file], not the [KeyError]
    the branch was written to raise. *)
Theorem tricks_from_missing_tricks_key_raises_NameError :
  forall (args : Args) (before : list string) (bad : string) (rest : list string)
         (content : string) (d : list (string * PyVal))
         (observers : list nat) (interrupt : option nat) (w w1 : World),
    files args = before ++ bad :: rest ->
    os_path_exists bad = true ->
    read_text_file bad = Ok content ->
    yaml_load content = Ok (VDict d) ->
    dict_lookup CONFIG_KEY_TRICKS d = None ->
    for_fold before [] start_tricks_file
      (set_sys_path (map VStr (path_split (python_path args) os_path_sep) ++ sys_path w) w)
      = (Ok observers, w1) ->
    start_tricks_file observers bad w1 =
      (Raise (NameError "input_file"), set_heap (heap w1 ++ [idle_observer]) w1) /\
    fst (tricks_from args interrupt w) = Raise (NameError "input_file") /\
    forall msg, fst (tricks_from args interrupt w) <> Raise (KeyError msg).
Proof.
  intros args before bad rest content d observers interrupt w w1
    Hfiles Hex Hr Hy Hd Hbefore.
  assert (Hbad : start_tricks_file observers bad w1 =
            (Raise (NameError "input_file"), set_heap (heap w1 ++ [idle_observer]) w1)).
  { apply start_tricks_file_unusable. right. repeat split; auto.
    exists content, (VDict d). repeat split; auto.
    simpl. now rewrite Hd. }
  split; [exact Hbad|].
  erewrite tricks_from_first_error by eauto. simpl.
  split; [reflexivity | discriminate].
Qed.

(** C7: [add_to_sys_path(paths)] puts the paths in front of [sys.path] in
    their listed order, [paths[0]] first.  For a document with a
    [python-path] list this is done before its tricks are scheduled:
    every search for a class of the document is made on the extended
    path, however the scheduling ends. *)
Theorem python_path_prepended_before_tricks_resolved :
  forall (paths : list PyVal) (observers : list nat) (tricks_file content : string)
         (d : list (string * PyVal)) (tricks : PyVal)
         (w : World) (r : Result (list nat)) (w' : World),
    os_path_exists tricks_file = true ->
    read_text_file tricks_file = Ok content ->
    yaml_load content = Ok (VDict d) ->
    dict_lookup CONFIG_KEY_TRICKS d = Some tricks ->
    dict_lookup CONFIG_KEY_PYTHON_PATH d = Some (VList paths) ->
    start_tricks_file observers tricks_file w = (r, w') ->
    add_to_sys_path (VList paths) 0 w = (Ok tt, set_sys_path (paths ++ sys_path w) w) /\
    sys_path w' = paths ++ sys_path w /\
    exists evs,
      trace w' = trace w ++ evs /\
      forall search_path name,
        In (EvLoadClass search_path name) evs -> search_path = paths ++ sys_path w.
Proof.
  intros paths observers tricks_file content d tricks w r w' Hex Hr Hy Ht Hp E.
  split; [apply add_to_sys_path_list|].
  erewrite start_tricks_file_loaded in E by eauto. rewrite Hp in E.
  erewrite bind_ok in E by apply add_to_sys_path_list.
  unfold bind at 1 in E.
  destruct (schedule_tricks _ _ _ _) as [[[]|e|] w2] eqn:Es;
    apply preserves_schedule_tricks in Es as (Hsp & _ & _ & _ & evs & Htr & Hevs);
    simpl in Hsp, Htr, Hevs.
  2,3: injection E as <- <-; split; [exact Hsp|]; exists evs; split; [exact Htr|];
    intros sp name Hin; rewrite List.Forall_forall in Hevs;
    exact (Hevs _ Hin).
  unfold bind at 1 in E.
  destruct (observer_start _ w2) as [[[]|e|] w3] eqn:Est;
    apply observer_call_frame in Est as (Hsp3 & Htr3 & _ & _);
    injection E as <- <-; (split; [congruence|]);
    exists (evs ++ [EvCall (length (heap w)) CallStart]);
    (split; [rewrite Htr3, Htr; now rewrite app_assoc|]);
    intros sp name Hin; apply in_app_or in Hin as [Hin | [Hin | []]];
    try discriminate;
    rewrite List.Forall_forall in Hevs; exact (Hevs _ Hin).
Qed.

End StartClaims.

(** ** Stopping the observers *)

Section StopFacts.
Context `{Platform}.

Lemma sleep_until_interrupt_raises n w :
  sleep_until_interrupt n w = (Raise KeyboardInterrupt, add_events (sleeps (S n)) w).
Proof.
  revert w. induction n as [|n IH]; intros w.
  - reflexivity.
  - simpl. unfold bind, emit. rewrite IH. unfold add_events. simpl.
    now rewrite <- app_assoc.
Qed.

Lemma wait_and_stop_interrupted observers n w :
  wait_and_stop observers (Some n) w =
  bind (stop_observers observers) (fun _ => join_observers observers)
    (add_events (sleeps (S n)) w).
Proof.
  unfold wait_and_stop, bind, try_except_KeyboardInterrupt. simpl sleep_forever.
  rewrite sleep_until_interrupt_raises. reflexivity.
Qed.

Lemma filter_keep_none (l : list WatchSession) :
  List.filter (keep_session None) l = [].
Proof. induction l; simpl; auto. Qed.

Lemma unschedule_all_ok o w h :
  heap w !! o = Some h ->
  state h = Running \/ state h = Stopping ->
  observer_fault o (CallUnschedule None) = None ->
  observer_unschedule o None w =
    (Ok tt,
     {| sys_path := sys_path w; uuid_clock := uuid_clock w;
        heap := <[o := {| state := state h; sessions := [] |}]> (heap w);
        trace := trace w ++ [EvCall o (CallUnschedule None)] |}).
Proof.
  intros Hh Hs Hf. unfold observer_unschedule.
  erewrite observer_call_ok; eauto.
  unfold do_unschedule. rewrite filter_keep_none.
  destruct Hs as [-> | ->]; reflexivity.
Qed.

Lemma stop_observer_ok o w h :
  heap w !! o = Some h ->
  state h = Running ->
  never_refused o [CallUnschedule None; CallStop] ->
  bind (observer_unschedule o None) (fun _ => observer_stop o) w =
    (Ok tt,
     {| sys_path := sys_path w; uuid_clock := uuid_clock w;
        heap := <[o := stopped_observer]> (heap w);
        trace := trace w ++ stop_calls o |}).
Proof.
  intros Hh Hs Hf. inversion Hf as [|? ? Hf1 Hf']; subst.
  inversion Hf' as [|? ? Hf2 _]; subst.
  erewrite bind_ok by (eapply unschedule_all_ok; eauto).
  unfold observer_stop. erewrite observer_call_ok; simpl; eauto.
  - unfold set_heap, log_event. simpl.
    now rewrite list_insert_insert_eq, <- app_assoc.
  - apply list_lookup_insert_eq. eapply lookup_lt_Some; eauto.
  - rewrite Hs. reflexivity.
Qed.

Lemma stop_observer_unschedule_refused o w h e :
  heap w !! o = Some h ->
  observer_fault o (CallUnschedule None) = Some e ->
  bind (observer_unschedule o None) (fun _ => observer_stop o) w =
    (Raise e, add_events [EvCall o (CallUnschedule None)] w).
Proof.
  intros Hh Hf. apply bind_raise. unfold observer_unschedule.
  erewrite observer_call_fault; eauto.
Qed.

Lemma stop_observer_stop_refused o w h e :
  heap w !! o = Some h ->
  state h = Running ->
  observer_fault o (CallUnschedule None) = None ->
  observer_fault o CallStop = Some e ->
  bind (observer_unschedule o None) (fun _ => observer_stop o) w =
    (Raise e,
     {| sys_path := sys_path w; uuid_clock := uuid_clock w;
        heap := <[o := {| state := Running; sessions := [] |}]> (heap w);
        trace := trace w ++ stop_calls o |}).
Proof.
  intros Hh Hs Hf1 Hf2.
  erewrite bind_ok by (eapply unschedule_all_ok; eauto).
  unfold observer_stop. erewrite observer_call_fault; simpl; eauto.
  - unfold log_event. simpl. now rewrite Hs, <- app_assoc.
  - apply list_lookup_insert_eq. eapply lookup_lt_Some; eauto.
Qed.

Lemma stop_all_length observers hp : length (stop_all observers hp) = length hp.
Proof.
  revert hp. induction observers as [|o os IH]; intros hp; simpl; [reflexivity|].
  unfold stop_all in *. simpl. now rewrite IH, length_insert.
Qed.

Lemma stop_all_other observers hp j :
  j ∉ observers -> stop_all observers hp !! j = hp !! j.
Proof.
  revert hp. induction observers as [|o os IH]; intros hp Hj; simpl; [reflexivity|].
  apply not_elem_of_cons in Hj as [Hne Hj].
  unfold stop_all in *. simpl. rewrite IH by exact Hj.
  now apply list_lookup_insert_ne.
Qed.

Lemma stop_all_stopped observers hp o :
  NoDup observers -> o ∈ observers -> o < length hp ->
  stop_all observers hp !! o = Some stopped_observer.
Proof.
  revert hp. induction observers as [|o' os IH]; intros hp Hnd Hin Hlt.
  - now apply elem_of_nil in Hin.
  - apply NoDup_cons in Hnd as [Hni Hnd].
    apply elem_of_cons in Hin as [-> | Hin].
    + change (stop_all os (<[o' := stopped_observer]> hp) !! o' = Some stopped_observer).
      rewrite stop_all_other by exact Hni. now apply list_lookup_insert_eq.
    + change (stop_all os (<[o' := stopped_observer]> hp) !! o = Some stopped_observer).
      apply IH; auto. now rewrite length_insert.
Qed.

Lemma all_running_tail o observers w hp' :
  all_running w (o :: observers) ->
  (forall j, j <> o -> hp' !! j = heap w !! j) ->
  forall w', heap w' = hp' -> all_running w' observers.
Proof.
  intros [Hnd Hall] Hother w' Hw'.
  apply NoDup_cons in Hnd as [Hni Hnd].
  apply Forall_cons in Hall as [_ Hall].
  split; [exact Hnd|].
  rewrite List.Forall_forall in *. intros o' Hin.
  destruct (Hall o' Hin) as (h & Hh & Hs). exists h. split; [|exact Hs].
  rewrite Hw', Hother; [exact Hh|].
  intros ->. apply Hni. now apply list_elem_of_In.
Qed.

(** The interrupt handler when no call is refused. *)
Lemma stop_observers_ok observers :
  forall w,
    all_running w observers ->
    Forall (fun o => never_refused o [CallUnschedule None; CallStop]) observers ->
    stop_observers observers w =
      (Ok tt,
       {| sys_path := sys_path w; uuid_clock := uuid_clock w;
          heap := stop_all observers (heap w);
          trace := trace w ++ concat (map stop_calls observers) |}).
Proof.
  induction observers as [|o os IH]; intros w Hrun Hnf.
  - simpl. unfold ret. rewrite app_nil_r. destruct w; reflexivity.
  - apply Forall_cons in Hnf as [Hf Hnf].
    pose proof Hrun as [_ Hall]. apply Forall_cons in Hall as [(h & Hh & Hs) _].
    unfold stop_observers in *. simpl for_each.
    unfold bind at 1. erewrite stop_observer_ok by eauto.
    rewrite IH; auto.
    + simpl. now rewrite <- app_assoc.
    + eapply (all_running_tail _ _ _ (<[o := stopped_observer]> (heap w)));
        [exact Hrun | | reflexivity].
      intros j Hj. now apply list_lookup_insert_ne.
Qed.

(** The interrupt handler when a call on [o] is the first one refused. *)
Lemma stop_observers_refused pre o post e :
  forall w,
    all_running w (pre ++ o :: post) ->
    Forall (fun o' => never_refused o' [CallUnschedule None; CallStop]) pre ->
    (observer_fault o (CallUnschedule None) = Some e \/
     observer_fault o (CallUnschedule None) = None /\
     observer_fault o CallStop = Some e) ->
    exists w',
      stop_observers (pre ++ o :: post) w = (Raise e, w') /\
      trace w' = trace w ++ concat (map stop_calls pre) ++
                 match observer_fault o (CallUnschedule None) with
                 | Some _ => [EvCall o (CallUnschedule None)]
                 | None => stop_calls o
                 end /\
      Forall (is_running w') post.
Proof.
  induction pre as [|p pre IH]; intros w Hrun Hnf Hfault.
  - simpl app in *. unfold stop_observers. simpl for_each.
    pose proof Hrun as [Hnd Hall]. apply Forall_cons in Hall as [(h & Hh & Hs) Hpost].
    assert (Hkeep : forall hp', (forall j, j <> o -> hp' !! j = heap w !! j) ->
              forall w', heap w' = hp' -> Forall (is_running w') post).
    { intros hp' Hother w' Hw'.
      destruct (all_running_tail _ _ _ hp' Hrun Hother w' Hw') as [_ Hp].
      exact Hp. }
    destruct Hfault as [Hf | [Hf1 Hf2]].
    + eexists. split.
      { apply bind_raise. eapply stop_observer_unschedule_refused; eauto. }
      rewrite Hf. simpl. split; [reflexivity|].
      apply (Hkeep (heap w)); auto.
    + eexists. split.
      { apply bind_raise. eapply stop_observer_stop_refused; eauto. }
      rewrite Hf1. simpl. split; [reflexivity|].
      eapply Hkeep; [|reflexivity]. simpl.
      intros j Hj. now apply list_lookup_insert_ne.
  - apply Forall_cons in Hnf as [Hf Hnf].
    pose proof Hrun as [_ Hall]. apply Forall_cons in Hall as [(h & Hh & Hs) _].
    unfold stop_observers in *. simpl app. simpl for_each.
    unfold bind at 1. erewrite stop_observer_ok by eauto.
    edestruct IH as (w' & -> & Htr & Hpost); [| exact Hnf | exact Hfault |].
    + eapply (all_running_tail _ _ _ (<[p := stopped_observer]> (heap w)));
        [exact Hrun | | reflexivity].
      intros j Hj. now apply list_lookup_insert_ne.
    + exists w'. split; [reflexivity|]. split; [|exact Hpost].
      rewrite Htr. simpl. now rewrite <- !app_assoc.
Qed.

Lemma join_observers_ok observers :
  forall w,
    Forall (fun o => heap w !! o = Some stopped_observer) observers ->
    Forall (fun o => never_refused o [CallJoin]) observers ->
    join_observers observers w = (Ok tt, add_events (map join_call observers) w).
Proof.
  induction observers as [|o os IH]; intros w Hst Hnf.
  - simpl. unfold ret, add_events. rewrite app_nil_r. destruct w; reflexivity.
  - apply Forall_cons in Hnf as [Hf Hnf]. apply Forall_cons in Hst as [Hh Hst].
    inversion Hf as [|? ? Hf1 _]; subst.
    unfold join_observers in *. simpl for_each.
    unfold bind at 1. unfold observer_join at 1.
    erewrite observer_call_ok; [| exact Hh | exact Hf1 | reflexivity].
    rewrite list_insert_id by exact Hh.
    rewrite IH; auto.
    unfold add_events, set_heap, log_event. simpl. now rewrite <- app_assoc.
Qed.

End StopFacts.

Section StopClaims.
Context `{Platform}.

Lemma all_running_stopped observers w :
  all_running w observers ->
  Forall (fun o => stop_all observers (heap w) !! o = Some stopped_observer) observers.
Proof.
  intros [Hnd Hall]. rewrite List.Forall_forall in *. intros o Hin.
  destruct (Hall o Hin) as (h & Hh & _).
  apply stop_all_stopped; auto.
  - now apply list_elem_of_In.
  - eapply lookup_lt_Some; eauto.
Qed.

(** C3, as the code has it: after the interrupt the handles are taken in
    start order and [unschedule()] then [stop()] is called on each.  A
    call that is refused is not collected: its error leaves [tricks_from]
    at once, the handles after it are neither unscheduled nor stopped and
    stay running, and no [join()] is made.  When no call is refused,
    [join()] is called on every handle, in start order, after all the
    [stop()] calls. *)
Theorem wait_and_stop_stops_until_first_refusal :
  forall (observers : list nat) (n : nat) (w : World),
    all_running w observers ->
    (Forall (fun o => never_refused o [CallUnschedule None; CallStop; CallJoin])
            observers ->
     exists w',
       wait_and_stop observers (Some n) w = (Ok tt, w') /\
       trace w' = trace w ++ sleeps (S n) ++
                  concat (map stop_calls observers) ++ map join_call observers /\
       Forall (fun o => heap w' !! o = Some stopped_observer) observers) /\
    (forall (pre : list nat) (o : nat) (post : list nat) (e : Exn),
       observers = pre ++ o :: post ->
       Forall (fun o' => never_refused o' [CallUnschedule None; CallStop]) pre ->
       observer_fault o (CallUnschedule None) = Some e \/
       observer_fault o (CallUnschedule None) = None /\
       observer_fault o CallStop = Some e ->
       exists w',
         wait_and_stop observers (Some n) w = (Raise e, w') /\
         trace w' = trace w ++ sleeps (S n) ++
                    concat (map stop_calls pre) ++
                    match observer_fault o (CallUnschedule None) with
                    | Some _ => [EvCall o (CallUnschedule None)]
                    | None => stop_calls o
                    end /\
         Forall (is_running w') post).
Proof.
  intros observers n w Hrun. split.
  - intros Hnf. eexists. split.
    { rewrite wait_and_stop_interrupted.
      erewrite bind_ok.
      2:{ apply stop_observers_ok; [exact Hrun|].
          eapply Forall_impl; [exact Hnf|]. intros o Ho.
          inversion Ho as [|? ? H1 Ho']; subst.
          inversion Ho' as [|? ? H2 _]; subst.
          repeat constructor; assumption. }
      apply join_observers_ok.
      - simpl. now apply all_running_stopped.
      - eapply Forall_impl; [exact Hnf|]. intros o Ho.
        inversion Ho as [|? ? H1 Ho']; subst.
        inversion Ho' as [|? ? H2 Ho'']; subst.
        inversion Ho'' as [|? ? H3 _]; subst.
        repeat constructor; assumption. }
    simpl. split.
    + now rewrite <- !app_assoc.
    + now apply all_running_stopped.
  - intros pre o post e -> Hnf Hfault.
    destruct (stop_observers_refused pre o post e (add_events (sleeps (S n)) w))
      as (w' & Hstop & Htr & Hpost); auto.
    exists w'. split.
    { rewrite wait_and_stop_interrupted. now apply bind_raise. }
    split; [|exact Hpost].
    rewrite Htr. simpl. now rewrite <- !app_assoc.
Qed.

(** C8: the interrupt handler calls [unschedule()] without an identifier
    on each observer and then [stop()]; the call without an identifier
    removes every session of the handle, so each observer is stopped with
    no session left. *)
Theorem stop_observers_unschedules_every_session :
  forall (observers : list nat) (w : World),
    all_running w observers ->
    Forall (fun o => never_refused o [CallUnschedule None; CallStop]) observers ->
    (forall o h,
       In o observers -> heap w !! o = Some h ->
       exists w1,
         observer_unschedule o None w = (Ok tt, w1) /\
         trace w1 = trace w ++ [EvCall o (CallUnschedule None)] /\
         heap w1 !! o = Some {| state := Running; sessions := [] |}) /\
    exists w',
      stop_observers observers w = (Ok tt, w') /\
      trace w' = trace w ++ concat (map stop_calls observers) /\
      Forall (fun o => heap w' !! o = Some {| state := Stopped; sessions := [] |})
             observers.
Proof.
  intros observers w Hrun Hnf. split.
  - intros o h Hin Hh.
    destruct Hrun as [_ Hall]. rewrite List.Forall_forall in Hall, Hnf.
    destruct (Hall o Hin) as (h' & Hh' & Hs).
    assert (h' = h) as -> by congruence.
    pose proof (Hnf o Hin) as Ho. inversion Ho as [|? ? H1 _]; subst.
    eexists. split; [eapply unschedule_all_ok; eauto|].
    simpl. split; [reflexivity|].
    rewrite Hs. apply list_lookup_insert_eq. eapply lookup_lt_Some; eauto.
  - eexists. split; [now apply stop_observers_ok|].
    simpl. split; [reflexivity|]. now apply all_running_stopped.
Qed.

End StopClaims.

(** * The claims on the small platform *)

Module OnDemo.

Import Demo.

(** C1 as stated fails: of two tricks, the first of which names a class
    that is not found, none is registered (not one), the call ends with
    the error of the search, and no warning is logged. *)
Lemma schedule_tricks_failing_trick_not_skipped :
  let tricks := VList [VDict [missing_item]; VDict [logger_item]] in
  let run := schedule_tricks 0 tricks "/srv/c" (one_idle quiet) in
  fst run = Raise (ImportError "tricks.Missing") /\
  map (fun h => length (sessions h)) (heap (snd run)) = [0] /\
  map (fun h => length (sessions h)) (heap (snd run)) <> [2 - 1] /\
  trace (snd run) =
    [EvLoadClass [VStr "/opt/tricks"; VStr "/usr/lib/python"] "tricks.Missing"].
Proof.
  intros tricks run.
  assert (Hrun : run = (Raise (ImportError "tricks.Missing"),
                        add_events
                          [EvLoadClass [VStr "/opt/tricks"; VStr "/usr/lib/python"]
                             "tricks.Missing"]
                          (one_idle quiet)))
    by (vm_compute; reflexivity).
  rewrite Hrun. repeat split; discriminate.
Qed.

Lemma schedule_tricks_stops_at_failing_trick_witness :
  exists w',
    schedule_tricks 0
      (VList [VDict [logger_item]; VDict [missing_item]; VDict [shell_item]])
      "/srv/c" (one_idle quiet) = (Raise (ImportError "tricks.Missing"), w') /\
    heap w' =
      [{| state := Idle;
          sessions := [trick_session (H := quiet) "/srv/c" 0
                         ("tricks.Logger", [VStr "*.py"], [])] |}].
Proof.
  destruct (schedule_tricks_stops_at_failing_trick (H := quiet) 0
              [[logger_item]; [missing_item]; [shell_item]]
              [logger_item] [shell_item] missing_item
              [("tricks.Logger", [VStr "*.py"], [])]
              (ImportError "tricks.Missing") "/srv/c" (one_idle quiet)
              (idle_observer (H := quiet)))
    as (w' & Hrun & Hheap & _).
  - reflexivity.
  - left. reflexivity.
  - intros i. reflexivity.
  - reflexivity.
  - repeat constructor. econstructor; reflexivity.
  - apply fails_to_resolve. reflexivity.
  - exists w'. split; [exact Hrun | exact Hheap].
Defined.

Lemma schedule_tricks_registers_each_trick_witness :
  exists w',
    schedule_tricks 0 (VList [VDict [logger_item]; VDict [shell_item]]) "/srv/a"
      (one_idle quiet) = (Ok tt, w') /\
    heap w' =
      [{| state := Idle;
          sessions :=
            [trick_session (H := quiet) "/srv/a" 0 ("tricks.Logger", [VStr "*.py"], []);
             trick_session (H := quiet) "/srv/a" 1 ("tricks.Shell", [], [("cmd", VStr "make")])] |}].
Proof.
  destruct (schedule_tricks_registers_each_trick (H := quiet) 0
              [[logger_item]; [shell_item]]
              [("tricks.Logger", [VStr "*.py"], []);
               ("tricks.Shell", [], [("cmd", VStr "make")])]
              "/srv/a" (one_idle quiet) (idle_observer (H := quiet)))
    as (w' & Hrun & Hheap & _).
  - reflexivity.
  - left. reflexivity.
  - intros i. reflexivity.
  - repeat constructor; econstructor; reflexivity.
  - exists w'. split; [exact Hrun | exact Hheap].
Defined.

Lemma schedule_tricks_defaults_missing_keys_witness :
  exists w',
    schedule_tricks 0 (VList [VDict [("tricks.Logger", VDict [])]]) "/srv/b"
      (one_idle quiet) = (Ok tt, w') /\
    trace w' =
      [EvWarn "kwargs" "tricks.Logger"; EvWarn "args" "tricks.Logger";
       EvLoadClass [VStr "/opt/tricks"; VStr "/usr/lib/python"] "tricks.Logger";
       EvCall 0 (CallSchedule (IdUuid 0) ["/srv/b"] true)] /\
    heap w' =
      [{| state := Idle;
          sessions := [trick_session (H := quiet) "/srv/b" 0 ("tricks.Logger", [], [])] |}].
Proof.
  destruct (schedule_tricks_defaults_missing_keys (H := quiet) 0
              "tricks.Logger" [] "tricks.Logger" ("tricks.Logger", [], [])
              "/srv/b" (one_idle quiet) (idle_observer (H := quiet)))
    as (w' & Hrun & Htrace & Hheap).
  - reflexivity.
  - left. reflexivity.
  - intros i. reflexivity.
  - reflexivity.
  - reflexivity.
  - exists w'. repeat split; assumption.
Defined.

(** C2 as stated fails: when the second file is missing, or has no
    [tricks] key, the error is raised after the observer of the first file
    was started, and that observer is running. *)
Lemma tricks_from_error_after_first_observer_started :
  let missing := tricks_from (H := quiet)
                   {| python_path := "."; files := ["/srv/a/tricks.yaml"; "/srv/missing.yaml"] |}
                   (Some 0) (initial quiet) in
  let keyless := tricks_from (H := quiet)
                   {| python_path := "."; files := ["/srv/a/tricks.yaml"; "/srv/d/tricks.yaml"] |}
                   (Some 0) (initial quiet) in
  (fst missing = Raise (IOError "cannot find tricks file: /srv/missing.yaml") /\
   map state (heap (snd missing)) = [Running; Idle] /\
   running_count (snd missing) = 1 /\
   calls_on 0 (trace (snd missing)) =
     [CallSchedule (IdUuid 0) ["/srv/a"] true;
      CallSchedule (IdUuid 1) ["/srv/a"] true; CallStart]) /\
  (fst keyless = Raise (NameError "input_file") /\
   map state (heap (snd keyless)) = [Running; Idle] /\
   running_count (snd keyless) = 1 /\
   calls_on 0 (trace (snd keyless)) =
     [CallSchedule (IdUuid 0) ["/srv/a"] true;
      CallSchedule (IdUuid 1) ["/srv/a"] true; CallStart]).
Proof.
  intros missing keyless. repeat split; vm_compute; reflexivity.
Qed.

Lemma tricks_from_config_error_after_earlier_starts_witness :
  exists w',
    tricks_from (H := quiet)
      {| python_path := "."; files := ["/srv/a/tricks.yaml"; "/srv/missing.yaml";
                                       "/srv/b/tricks.yaml"] |}
      (Some 0) (initial quiet)
    = (Raise (IOError "cannot find tricks file: /srv/missing.yaml"), w') /\
    Forall (is_running w') [0] /\
    heap w' !! 1 = Some (idle_observer (H := quiet)).
Proof.
  pose (args := {| python_path := "."; files := ["/srv/a/tricks.yaml"; "/srv/missing.yaml";
                                                 "/srv/b/tricks.yaml"] |}).
  pose (w1 := snd (for_fold (H := quiet) ["/srv/a/tricks.yaml"] [] start_tricks_file
                     (entry quiet args))).
  destruct (tricks_from_config_error_after_earlier_starts (H := quiet) args
              ["/srv/a/tricks.yaml"] "/srv/missing.yaml" ["/srv/b/tricks.yaml"]
              (IOError "cannot find tricks file: /srv/missing.yaml")
              [0] (Some 0) (initial quiet) w1)
    as (Hrun & _ & Hidle & _ & _ & Hall & _).
  - reflexivity.
  - left. split; reflexivity.
  - vm_compute. reflexivity.
  - eexists. split; [exact Hrun|]. split; [exact Hall|].
    rewrite <- Hidle. vm_compute. reflexivity.
Defined.

Lemma tricks_from_missing_tricks_key_raises_NameError_witness :
  fst (tricks_from (H := quiet)
         {| python_path := "."; files := ["/srv/a/tricks.yaml"; "/srv/d/tricks.yaml"] |}
         (Some 0) (initial quiet))
  = Raise (NameError "input_file").
Proof.
  pose (args := {| python_path := "."; files := ["/srv/a/tricks.yaml"; "/srv/d/tricks.yaml"] |}).
  pose (w1 := snd (for_fold (H := quiet) ["/srv/a/tricks.yaml"] [] start_tricks_file
                     (entry quiet args))).
  destruct (tricks_from_missing_tricks_key_raises_NameError (H := quiet) args
              ["/srv/a/tricks.yaml"] "/srv/d/tricks.yaml" [] "/srv/d/tricks.yaml"
              [("python-path", VList [VStr "/opt/tricks"])]
              [0] (Some 0) (initial quiet) w1)
    as (_ & Hraise & _).
  - reflexivity.
  - reflexivity.
  - reflexivity.
  - reflexivity.
  - reflexivity.
  - vm_compute. reflexivity.
  - exact Hraise.
Defined.

Lemma python_path_prepended_before_tricks_resolved_witness :
  let run := start_tricks_file (H := quiet) [] "/srv/a/tricks.yaml" (initial quiet) in
  sys_path (snd run) = [VStr "/opt/tricks"; VStr "/opt/more"; VStr "/usr/lib/python"] /\
  exists evs,
    trace (snd run) = evs /\
    forall search_path name,
      In (EvLoadClass search_path name) evs ->
      search_path = [VStr "/opt/tricks"; VStr "/opt/more"; VStr "/usr/lib/python"].
Proof.
  intros run.
  destruct (python_path_prepended_before_tricks_resolved (H := quiet)
              [VStr "/opt/tricks"; VStr "/opt/more"] [] "/srv/a/tricks.yaml"
              "/srv/a/tricks.yaml"
              [ ("python-path", VList [VStr "/opt/tricks"; VStr "/opt/more"]);
                ("tricks",
                 VList [ VDict [logger_item]; VDict [shell_item] ]) ]
              (VList [ VDict [logger_item]; VDict [shell_item] ])
              (initial quiet) (fst run) (snd run))
    as (_ & Hpath & evs & Htrace & Hloads).
  - reflexivity.
  - reflexivity.
  - reflexivity.
  - reflexivity.
  - reflexivity.
  - apply surjective_pairing.
  - split; [exact Hpath|]. exists evs. split; [exact Htrace | exact Hloads].
Defined.

(** C3 as stated fails: when [unschedule()] is refused on the first
    observer, the error leaves [tricks_from]; the second observer is
    neither unscheduled nor stopped and stays running with its session, and
    no [join()] is called on either. *)
Lemma tricks_from_refused_unschedule_not_collected :
  let run := tricks_from (H := stubborn) two_tricks_args (Some 0) (initial stubborn) in
  fst run = Raise (ObserverError "primitive failed") /\
  map state (heap (snd run)) = [Running; Running] /\
  map (fun h => length (sessions h)) (heap (snd run)) = [2; 1] /\
  calls_on 0 (trace (snd run)) =
    [CallSchedule (IdUuid 0) ["/srv/a"] true; CallSchedule (IdUuid 1) ["/srv/a"] true;
     CallStart; CallUnschedule None] /\
  calls_on 1 (trace (snd run)) =
    [CallSchedule (IdUuid 2) ["/srv/b"] true; CallStart].
Proof.
  intros run. repeat split; vm_compute; reflexivity.
Qed.

Lemma both_started_all_running (P : Platform) :
  P = quiet \/ P = jammed -> all_running (both_started P) [0; 1].
Proof.
  assert (Hnd : NoDup [0; 1]).
  { constructor.
    - intros Hin. apply list_elem_of_In in Hin as [Hin | []]. discriminate.
    - constructor; [|constructor]. intros Hin. now apply elem_of_nil in Hin. }
  intros [-> | ->]; (split; [exact Hnd|]);
    repeat constructor; eexists; (split; [vm_compute; reflexivity | reflexivity]).
Qed.

Lemma wait_and_stop_stops_until_first_refusal_witness :
  (exists w',
     wait_and_stop (H := quiet) [0; 1] (Some 0) (both_started quiet) = (Ok tt, w') /\
     trace w' = trace (both_started quiet) ++
                [EvSleep;
                 EvCall 0 (CallUnschedule None); EvCall 0 CallStop;
                 EvCall 1 (CallUnschedule None); EvCall 1 CallStop;
                 EvCall 0 CallJoin; EvCall 1 CallJoin]) /\
  (exists w',
     wait_and_stop (H := jammed) [0; 1] (Some 0) (both_started jammed)
       = (Raise (ObserverError "primitive failed"), w') /\
     trace w' = trace (both_started jammed) ++
                [EvSleep;
                 EvCall 0 (CallUnschedule None); EvCall 0 CallStop;
                 EvCall 1 (CallUnschedule None); EvCall 1 CallStop]).
Proof.
  split.
  - destruct (wait_and_stop_stops_until_first_refusal (H := quiet) [0; 1] 0
                (both_started quiet)) as [Hall _].
    + apply both_started_all_running. now left.
    + destruct Hall as (w' & Hrun & Htrace & _).
      * repeat constructor.
      * exists w'. split; [exact Hrun | exact Htrace].
  - destruct (wait_and_stop_stops_until_first_refusal (H := jammed) [0; 1] 0
                (both_started jammed)) as [_ Hfirst].
    + apply both_started_all_running. now right.
    + destruct (Hfirst [0] 1 [] (ObserverError "primitive failed"))
        as (w' & Hrun & Htrace & _).
      * reflexivity.
      * repeat constructor.
      * right. split; reflexivity.
      * exists w'. split; [exact Hrun | exact Htrace].
Defined.

Lemma stop_observers_unschedules_every_session_witness :
  exists w',
    stop_observers (H := quiet) [0; 1] (both_started quiet) = (Ok tt, w') /\
    Forall (fun o => heap w' !! o = Some {| state := Stopped; sessions := [] |}) [0; 1].
Proof.
  destruct (stop_observers_unschedules_every_session (H := quiet) [0; 1]
              (both_started quiet)) as (_ & w' & Hrun & _ & Hall).
  - apply both_started_all_running. now left.
  - repeat constructor.
  - exists w'. split; [exact Hrun | exact Hall].
Defined.

End OnDemo.

(** * Further properties *)

(** ** [path_split] and [parse_patterns] *)

Module SplitFacts.

Lemma split_app sep a b :
  Str.split sep (a +:+ String sep b) = Str.split sep a ++ Str.split sep b.
Proof.
  induction a as [|c a IH]; simpl.
  - now rewrite Ascii.eqb_refl.
  - destruct (Ascii.eqb c sep); rewrite IH; [reflexivity|].
    pose proof (StrFacts.split_nonempty sep a) as Hne.
    destruct (Str.split sep a) as [|p ps]; [congruence | reflexivity].
Qed.

Lemma split_whole sep s : Str.has_char sep s = false -> Str.split sep s = [s].
Proof.
  induction s as [|c s IH]; simpl; [reflexivity|].
  destruct (Ascii.eqb c sep); simpl; [discriminate|].
  intros Hs. now rewrite IH.
Qed.

Lemma split_length sep s : length (Str.split sep s) = S (count_char sep s).
Proof.
  induction s as [|c s IH]; simpl; [reflexivity|].
  destruct (Ascii.eqb c sep); simpl; [now rewrite IH|].
  pose proof (StrFacts.split_nonempty sep s) as Hne.
  destruct (Str.split sep s) as [|p ps]; [congruence | exact IH].
Qed.

End SplitFacts.

(** X1: [path_split] undoes joining: pieces that do not hold the
    separator, joined by it, are split into the same pieces. *)
Theorem path_split_join :
  forall (sep : ascii) (pieces : list string),
    pieces <> [] ->
    Forall (fun piece => Str.has_char sep piece = false) pieces ->
    path_split (Str.join sep pieces) sep = pieces.
Proof.
  intros sep pieces Hne Hall. unfold path_split.
  induction Hall as [|p ps Hp Hall IH]; [congruence|].
  destruct ps as [|q ps].
  - simpl. now apply SplitFacts.split_whole.
  - change (Str.join sep (p :: q :: ps))
      with (p +:+ String sep (Str.join sep (q :: ps))).
    rewrite SplitFacts.split_app, SplitFacts.split_whole by exact Hp.
    simpl. f_equal. apply IH. discriminate.
Qed.

(** X2: the include patterns are one more than the semicolons of the
    specification, so there is always at least one; and the patterns of two
    specifications joined by a semicolon are those of the first followed by
    those of the second. *)
Theorem parse_patterns_counts_and_concatenates :
  forall (a b ignore_patterns_spec : string),
    length (fst (parse_patterns a ignore_patterns_spec)) = S (count_char ";" a) /\
    fst (parse_patterns a ignore_patterns_spec) <> [] /\
    fst (parse_patterns (a +:+ String ";" b) ignore_patterns_spec) =
      fst (parse_patterns a ignore_patterns_spec) ++
      fst (parse_patterns b ignore_patterns_spec).
Proof.
  intros a b i. unfold parse_patterns. simpl. repeat split.
  - apply SplitFacts.split_length.
  - apply StrFacts.split_nonempty.
  - apply SplitFacts.split_app.
Qed.

(** X3: the ignore list is empty for the empty specification only; any
    other specification, one made of semicolons alone too, is split like
    the include specification and keeps its empty patterns. *)
Theorem parse_patterns_ignore_empty_iff :
  forall (patterns_spec ignore_patterns_spec : string),
    (snd (parse_patterns patterns_spec ignore_patterns_spec) = [] <->
     ignore_patterns_spec = EmptyString) /\
    (ignore_patterns_spec <> EmptyString ->
     snd (parse_patterns patterns_spec ignore_patterns_spec) =
       Str.split ";" ignore_patterns_spec) /\
    snd (parse_patterns patterns_spec ";") = [EmptyString; EmptyString].
Proof.
  intros p i. unfold parse_patterns, string_list_eqb. simpl.
  split; [|split; [|reflexivity]].
  - case_bool_decide as E.
    + apply StrFacts.split_eq_empty_piece in E. tauto.
    + split.
      * intros Hnil. now apply StrFacts.split_nonempty in Hnil.
      * intros ->. now contradiction E.
  - intros Hne. case_bool_decide as E; [|reflexivity].
    apply StrFacts.split_eq_empty_piece in E. congruence.
Qed.

(** ** [add_to_sys_path] *)

Section SysPathExtras.
Context `{Platform}.

Lemma insert_reversed_at index (l : list PyVal) w :
  index <= length (sys_path w) ->
  for_each (rev l)
    (fun path w => (Ok tt, set_sys_path (list_insert_at index path (sys_path w)) w)) w =
  (Ok tt, set_sys_path (take index (sys_path w) ++ l ++ drop index (sys_path w)) w).
Proof.
  intros Hi. revert w Hi. induction l as [|x l IH]; intros w Hi; simpl.
  - rewrite take_drop. destruct w; reflexivity.
  - rewrite for_each_app. erewrite bind_ok by (apply IH; exact Hi).
    simpl. unfold bind, ret, set_sys_path, list_insert_at. simpl.
    rewrite take_app_length' by (rewrite length_take_le; [reflexivity | exact Hi]).
    rewrite drop_app_length' by (rewrite length_take_le; [reflexivity | exact Hi]).
    reflexivity.
Qed.

Lemma insert_past_end index (m : list PyVal) :
  forall w,
    length (sys_path w) + length m <= S index ->
    for_each m
      (fun path w => (Ok tt, set_sys_path (list_insert_at index path (sys_path w)) w)) w =
    (Ok tt, set_sys_path (sys_path w ++ m) w).
Proof.
  induction m as [|x m IH]; intros w Hi; simpl.
  - rewrite app_nil_r. destruct w; reflexivity.
  - simpl in Hi. unfold bind at 1. rewrite IH.
    + simpl. unfold list_insert_at.
      rewrite take_ge, drop_ge by lia. simpl.
      now rewrite <- app_assoc.
    + simpl. unfold list_insert_at.
      rewrite take_ge, drop_ge by lia. rewrite length_app. simpl. lia.
Qed.

(** X4: called with an index within [sys.path], [add_to_sys_path] puts the
    paths at that index in their listed order, between the entries before
    the index and those from it on; nothing else changes. *)
Theorem add_to_sys_path_at_index :
  forall (paths : list PyVal) (index : nat) (w : World),
    index <= length (sys_path w) ->
    add_to_sys_path (VList paths) index w =
      (Ok tt,
       set_sys_path (take index (sys_path w) ++ paths ++ drop index (sys_path w)) w).
Proof.
  intros paths index w Hi. unfold add_to_sys_path. unfold bind at 1. simpl.
  now apply insert_reversed_at.
Qed.

(** X5: called with an index past the end of [sys.path], by the number of
    paths or more, [add_to_sys_path] appends the paths in reverse order:
    every insertion lands at the end. *)
Theorem add_to_sys_path_past_end_reverses :
  forall (paths : list PyVal) (index : nat) (w : World),
    length (sys_path w) + length paths <= S index ->
    add_to_sys_path (VList paths) index w =
      (Ok tt, set_sys_path (sys_path w ++ rev paths) w).
Proof.
  intros paths index w Hi. unfold add_to_sys_path. unfold bind at 1. simpl.
  apply insert_past_end. now rewrite length_rev.
Qed.

End SysPathExtras.

(** ** [schedule_tricks] on unusual configurations *)

Section ScheduleExtras.
Context `{Platform}.

Lemma schedule_tricks_cons o watch_path d l w :
  schedule_tricks o (VList (VDict d :: l)) watch_path w =
  bind (for_each d (schedule_trick o watch_path))
       (fun _ => schedule_tricks o (VList l) watch_path) w.
Proof.
  unfold schedule_tricks, bind, lift. simpl. unfold bind.
  destruct (for_each d (schedule_trick o watch_path) w) as [[[]| |] w1]; reflexivity.
Qed.

Lemma schedule_tricks_prefix o watch_path dicts rest :
  forall w w1,
    for_each (concat dicts) (schedule_trick o watch_path) w = (Ok tt, w1) ->
    schedule_tricks o (VList (map VDict dicts ++ rest)) watch_path w =
    schedule_tricks o (VList rest) watch_path w1.
Proof.
  induction dicts as [|d dicts IH]; intros w w1 Hrun; simpl in *.
  - unfold ret in Hrun. now injection Hrun as <-.
  - rewrite for_each_app in Hrun.
    apply bind_ok_inv in Hrun as ([] & w0 & Hd & Hrest).
    rewrite schedule_tricks_cons. erewrite bind_ok by exact Hd.
    now apply IH.
Qed.

Lemma schedule_tricks_after_prefix o watch_path dicts rest handlers w h r w' :
  heap w !! o = Some h ->
  accepts_sessions h ->
  (forall i, observer_fault o (CallSchedule i [watch_path] true) = None) ->
  Forall2 (builds (sys_path w)) (concat dicts) handlers ->
  schedule_tricks o (VList rest) watch_path
    (after_scheduling o watch_path (concat dicts) handlers h w) = (r, w') ->
  schedule_tricks o (VList (map VDict dicts ++ rest)) watch_path w = (r, w').
Proof.
  intros Hh Hacc Hf Hall Hrest.
  erewrite schedule_tricks_prefix; [exact Hrest|].
  eapply schedule_items_ok; eauto.
Qed.

(** X6: a list of tricks that holds nothing to schedule, being empty or
    made of empty mappings, is accepted: nothing is called, nothing changes,
    whatever the observer given. *)
Theorem schedule_tricks_nothing_to_schedule :
  forall (o : nat) (dicts : list (list (string * PyVal))) (watch_path : string)
         (w : World),
    concat dicts = [] ->
    schedule_tricks o (VList (map VDict dicts)) watch_path w = (Ok tt, w).
Proof.
  intros o dicts watch_path w Hempty.
  rewrite schedule_tricks_items, Hempty. reflexivity.
Qed.

(** X7: an entry of the trick list that is not a mapping ends
    [schedule_tricks] with [AttributeError]: the tricks before it are
    registered, nothing is done for the entries after it. *)
Theorem schedule_tricks_entry_not_a_mapping :
  forall (o : nat) (dicts : list (list (string * PyVal))) (bad : PyVal)
         (post : list PyVal) (handlers : list Handler) (watch_path : string)
         (w : World) (h : ObserverHandle),
    heap w !! o = Some h ->
    accepts_sessions h ->
    (forall i, observer_fault o (CallSchedule i [watch_path] true) = None) ->
    Forall2 (builds (sys_path w)) (concat dicts) handlers ->
    ~ is_mapping bad ->
    schedule_tricks o (VList (map VDict dicts ++ bad :: post)) watch_path w =
      (Raise (AttributeError "items"),
       after_scheduling o watch_path (concat dicts) handlers h w).
Proof.
  intros o dicts bad post handlers watch_path w h Hh Hacc Hf Hall Hbad.
  eapply schedule_tricks_after_prefix; eauto.
  unfold schedule_tricks, bind, lift. simpl.
  destruct bad; try reflexivity. now contradiction Hbad.
Qed.

(** X8: a trick whose value is no mapping and no sequence, as when the
    configuration names the class and gives nothing after it, ends
    [schedule_tricks] with [TypeError] at the first key check: no warning
    is logged for it and its class is not searched. *)
Theorem schedule_tricks_trick_without_mapping :
  forall (o : nat) (dicts : list (list (string * PyVal))) (name : string)
         (value : PyVal) (more : list (string * PyVal)) (post : list PyVal)
         (handlers : list Handler) (watch_path : string)
         (w : World) (h : ObserverHandle),
    heap w !! o = Some h ->
    accepts_sessions h ->
    (forall i, observer_fault o (CallSchedule i [watch_path] true) = None) ->
    Forall2 (builds (sys_path w)) (concat dicts) handlers ->
    is_scalar value ->
    schedule_tricks o
      (VList (map VDict dicts ++ VDict ((name, value) :: more) :: post)) watch_path w =
      (Raise (TypeError "argument is not iterable"),
       after_scheduling o watch_path (concat dicts) handlers h w).
Proof.
  intros o dicts name value more post handlers watch_path w h Hh Hacc Hf Hall Hv.
  eapply schedule_tricks_after_prefix; eauto.
  unfold schedule_tricks, schedule_trick, check_trick_has_key, bind, lift. simpl.
  destruct value; try reflexivity; now contradiction Hv.
Qed.

(** X9: what [schedule_tricks] does when [tricks] is not a list: a value
    that cannot be iterated raises [TypeError]; a mapping is iterated over
    its keys, so that the first key raises [AttributeError]; the empty
    mapping is accepted.  The world is left as it was in each case. *)
Theorem schedule_tricks_tricks_not_a_list :
  forall (o : nat) (watch_path : string) (w : World)
         (b : bool) (z : Z) (item : string * PyVal) (d : list (string * PyVal)),
    schedule_tricks o VNone watch_path w =
      (Raise (TypeError "object is not iterable"), w) /\
    schedule_tricks o (VBool b) watch_path w =
      (Raise (TypeError "object is not iterable"), w) /\
    schedule_tricks o (VInt z) watch_path w =
      (Raise (TypeError "object is not iterable"), w) /\
    schedule_tricks o (VDict (item :: d)) watch_path w =
      (Raise (AttributeError "items"), w) /\
    schedule_tricks o (VDict []) watch_path w = (Ok tt, w).
Proof.
  intros. repeat split.
Qed.

(** X10: whatever the tricks and however it ends, [schedule_tricks] leaves
    [sys.path], the number of observers, every other observer and the state
    of its own observer as they were; all it causes are warnings, searches
    for classes on the unchanged path and [schedule] calls on its
    observer. *)
Theorem schedule_tricks_only_schedules :
  forall (o : nat) (tricks : PyVal) (watch_path : string) (w : World),
    let w' := snd (schedule_tricks o tricks watch_path w) in
    sys_path w' = sys_path w /\
    length (heap w') = length (heap w) /\
    (forall j, j <> o -> heap w' !! j = heap w !! j) /\
    state <$> heap w' !! o = state <$> heap w !! o /\
    exists evs,
      trace w' = trace w ++ evs /\
      Forall (scheduling_event (sys_path w) o) evs.
Proof.
  intros o tricks watch_path w w'.
  apply (preserves_schedule_tricks o tricks watch_path w
           (fst (schedule_tricks o tricks watch_path w))).
  apply surjective_pairing.
Qed.

End ScheduleExtras.

(** ** [sys.path] through [tricks_from] *)

Section SearchPathFacts.
Context `{Platform}.

Lemma keeps_search_path_refl w : keeps_search_path w w.
Proof. now exists []. Qed.

Lemma keeps_search_path_trans w1 w2 w3 :
  keeps_search_path w1 w2 -> keeps_search_path w2 w3 -> keeps_search_path w1 w3.
Proof.
  intros [f1 H1] [f2 H2]. exists (f2 ++ f1). now rewrite H2, H1, app_assoc.
Qed.

Lemma keeps_ret {A} (a : A) : preserves keeps_search_path (ret a).
Proof. intros w r w' E. injection E as <- <-. apply keeps_search_path_refl. Qed.

Lemma keeps_raise {A} (e : Exn) : preserves keeps_search_path (raise (A := A) e).
Proof. intros w r w' E. injection E as <- <-. apply keeps_search_path_refl. Qed.

Lemma keeps_lift {A} (x : Result A) : preserves keeps_search_path (lift x).
Proof. intros w r w' E. injection E as <- <-. apply keeps_search_path_refl. Qed.

Lemma keeps_bind {A B} (m : M A) (k : A -> M B) :
  preserves keeps_search_path m -> (forall a, preserves keeps_search_path (k a)) -> preserves keeps_search_path (bind m k).
Proof.
  intros Hm Hk w r w' E. unfold bind in E.
  destruct (m w) as [[a|e|] w1] eqn:Em.
  - eapply keeps_search_path_trans; [eapply Hm | eapply Hk]; eauto.
  - injection E as <- <-. eapply Hm; eauto.
  - injection E as <- <-. eapply Hm; eauto.
Qed.

Lemma keeps_for_each {A} (l : list A) (body : A -> M unit) :
  (forall x, preserves keeps_search_path (body x)) -> preserves keeps_search_path (for_each l body).
Proof.
  intros Hb. induction l as [|x l IH]; simpl.
  - apply keeps_ret.
  - apply keeps_bind; auto.
Qed.

Lemma keeps_for_fold {A S} (l : list A) (acc : S) (body : S -> A -> M S) :
  (forall acc x, preserves keeps_search_path (body acc x)) -> preserves keeps_search_path (for_fold l acc body).
Proof.
  intros Hb. revert acc. induction l as [|x l IH]; intros acc; simpl.
  - apply keeps_ret.
  - apply keeps_bind; auto.
Qed.

Lemma keeps_try_except (body on_interrupt : M unit) :
  preserves keeps_search_path body -> preserves keeps_search_path on_interrupt ->
  preserves keeps_search_path (try_except_KeyboardInterrupt body on_interrupt).
Proof.
  intros Hb Hi w r w' E. unfold try_except_KeyboardInterrupt in E.
  destruct (body w) as [[a|e|] w1] eqn:Eb.
  - injection E as <- <-. eapply Hb; eauto.
  - destruct e; try (injection E as <- <-; eapply Hb; eauto).
    eapply keeps_search_path_trans; [eapply Hb | eapply Hi]; eauto.
  - injection E as <- <-. eapply Hb; eauto.
Qed.

Lemma same_path_keeps {A} (m : M A) :
  (forall w r w', m w = (r, w') -> sys_path w' = sys_path w) ->
  preserves keeps_search_path m.
Proof. intros Hm w r w' E. exists []. simpl. eapply Hm; eauto. Qed.

Lemma keeps_add_to_sys_path paths :
  preserves keeps_search_path (add_to_sys_path paths 0).
Proof.
  unfold add_to_sys_path.
  apply keeps_bind; [apply keeps_lift|].
  intros l. apply keeps_for_each.
  intros x w r w' E. injection E as <- <-. now exists [x].
Qed.

Lemma keeps_observer_call {A} o call
    (step : ObserverHandle -> Result (A * ObserverHandle)) :
  preserves keeps_search_path (observer_call o call step).
Proof.
  apply same_path_keeps. intros w r w' E.
  now apply observer_call_frame in E as (-> & _).
Qed.

Lemma keeps_schedule_tricks o tricks watch_path :
  preserves keeps_search_path (schedule_tricks o tricks watch_path).
Proof.
  apply same_path_keeps. intros w r w' E.
  now apply preserves_schedule_tricks in E as (-> & _).
Qed.

Lemma keeps_start_tricks_file observers tricks_file :
  preserves keeps_search_path (start_tricks_file observers tricks_file).
Proof.
  unfold start_tricks_file, load_config.
  apply keeps_bind.
  { apply same_path_keeps. intros w r w' E. now injection E as <- <-. }
  intros o. destruct (os_path_exists tricks_file); simpl; [|apply keeps_raise].
  repeat first
    [ apply keeps_lift
    | apply keeps_ret
    | apply keeps_raise
    | apply keeps_add_to_sys_path
    | apply keeps_schedule_tricks
    | apply keeps_observer_call
    | apply keeps_bind; [|intros ?]
    | match goal with |- preserves _ (if ?b then _ else _) => destruct b end ].
Qed.

Lemma keeps_wait_and_stop observers interrupt :
  preserves keeps_search_path (wait_and_stop observers interrupt).
Proof.
  unfold wait_and_stop, stop_observers, join_observers.
  apply keeps_bind.
  - apply keeps_try_except.
    + destruct interrupt as [n|]; simpl; [|apply keeps_lift].
      induction n as [|n IH]; simpl.
      * apply keeps_bind; [|intros; apply keeps_raise].
        apply same_path_keeps. intros w r w' E. now injection E as <- <-.
      * apply keeps_bind; [|intros; exact IH].
        apply same_path_keeps. intros w r w' E. now injection E as <- <-.
    + apply keeps_for_each. intros o.
      apply keeps_bind; [|intros ?]; apply keeps_observer_call.
  - intros _. apply keeps_for_each. intros o. apply keeps_observer_call.
Qed.

(** X11: however [tricks_from] ends, with an error, blocked or normally,
    [sys.path] as it was before the call is still there, in its order,
    behind the entries the call has put in front: no entry is ever removed
    or moved. *)
Theorem tricks_from_keeps_search_path :
  forall (args : Args) (interrupt : option nat) (w : World),
    exists front,
      sys_path (snd (tricks_from args interrupt w)) = front ++ sys_path w.
Proof.
  intros args interrupt w.
  assert (Hk : preserves keeps_search_path (tricks_from args interrupt)).
  { unfold tricks_from.
    apply keeps_bind; [apply keeps_add_to_sys_path|].
    intros _. apply keeps_bind.
    - apply keeps_for_fold. intros acc f. apply keeps_start_tricks_file.
    - intros observers. apply keeps_wait_and_stop. }
  apply (Hk w (fst (tricks_from args interrupt w))).
  apply surjective_pairing.
Qed.

End SearchPathFacts.

(** ** Tricks files of unusual shapes *)

Section StartExtras.
Context `{Platform}.

(** The loop body from the scheduling on: the path is not touched and
    every search is made on it. *)
Lemma schedule_and_start_searches o tricks dir (observers' : list nat) w r w' :
  bind (schedule_tricks o tricks dir)
    (fun _ => bind (observer_start o) (fun _ => ret observers')) w = (r, w') ->
  sys_path w' = sys_path w /\
  exists evs,
    trace w' = trace w ++ evs /\
    forall search_path name,
      In (EvLoadClass search_path name) evs -> search_path = sys_path w.
Proof.
  intros E. unfold bind at 1 in E.
  destruct (schedule_tricks _ _ _ _) as [[[]|e|] w2] eqn:Es;
    apply preserves_schedule_tricks in Es as (Hsp & _ & _ & _ & evs & Htr & Hevs).
  2,3: injection E as <- <-; split; [exact Hsp|]; exists evs; split; [exact Htr|];
    intros sp name Hin; rewrite List.Forall_forall in Hevs;
    exact (Hevs _ Hin).
  unfold bind at 1 in E.
  destruct (observer_start _ w2) as [[[]|e|] w3] eqn:Est;
    apply observer_call_frame in Est as (Hsp3 & Htr3 & _ & _);
    injection E as <- <-; (split; [congruence|]);
    exists (evs ++ [EvCall o CallStart]);
    (split; [rewrite Htr3, Htr; now rewrite app_assoc|]);
    intros sp name Hin; apply in_app_or in Hin as [Hin | [Hin | []]];
    try discriminate;
    rewrite List.Forall_forall in Hevs; exact (Hevs _ Hin).
Qed.

(** X12: a tricks file whose document is not a mapping never has its
    observer started: the loop body ends with [TypeError], or with the
    [NameError] of the missing key branch, and all it leaves is the
    observer it made, idle. *)
Theorem start_tricks_file_document_not_a_mapping :
  forall (observers : list nat) (tricks_file content : string) (config : PyVal)
         (w : World),
    os_path_exists tricks_file = true ->
    read_text_file tricks_file = Ok content ->
    yaml_load content = Ok config ->
    ~ is_mapping config ->
    exists e,
      start_tricks_file observers tricks_file w =
        (Raise e, set_heap (heap w ++ [idle_observer]) w) /\
      (is_type_error e \/ e = NameError "input_file").
Proof.
  intros observers tricks_file content config w Hex Hr Hy Hmap.
  unfold start_tricks_file, bind at 1, Observer. rewrite Hex. simpl.
  erewrite bind_ok by (eapply load_config_ok; eauto).
  unfold bind at 1, lift.
  destruct config as [| b | z | s | l | l | d]; simpl;
    try (eexists; split; [reflexivity | left; exact I]).
  - destruct (Str.contains CONFIG_KEY_TRICKS s); simpl;
      eexists; (split; [reflexivity|]); [left; exact I | now right].
  - destruct (existsb (py_is_str CONFIG_KEY_TRICKS) l); simpl;
      eexists; (split; [reflexivity|]); [left; exact I | now right].
  - destruct (existsb (py_is_str CONFIG_KEY_TRICKS) l); simpl;
      eexists; (split; [reflexivity|]); [left; exact I | now right].
  - now contradiction Hmap.
Qed.

(** X13: a document whose [python-path] is a string, not a list of
    strings, puts every character of the string on [sys.path], in order, as
    a path of its own; the classes of the document are searched on that
    path. *)
Theorem python_path_string_adds_characters :
  forall (text : string) (observers : list nat) (tricks_file content : string)
         (d : list (string * PyVal)) (tricks : PyVal)
         (w : World) (r : Result (list nat)) (w' : World),
    os_path_exists tricks_file = true ->
    read_text_file tricks_file = Ok content ->
    yaml_load content = Ok (VDict d) ->
    dict_lookup CONFIG_KEY_TRICKS d = Some tricks ->
    dict_lookup CONFIG_KEY_PYTHON_PATH d = Some (VStr text) ->
    start_tricks_file observers tricks_file w = (r, w') ->
    sys_path w' = map VStr (Str.chars text) ++ sys_path w /\
    exists evs,
      trace w' = trace w ++ evs /\
      forall search_path name,
        In (EvLoadClass search_path name) evs ->
        search_path = map VStr (Str.chars text) ++ sys_path w.
Proof.
  intros text observers tricks_file content d tricks w r w' Hex Hr Hy Ht Hp E.
  erewrite start_tricks_file_loaded in E by eauto. rewrite Hp in E.
  erewrite bind_ok in E.
  2:{ unfold add_to_sys_path. unfold bind at 1. simpl.
      apply insert_reversed_prepends. }
  apply schedule_and_start_searches in E. exact E.
Qed.

(** X14: a document whose [python-path] is no sequence (nothing, a
    number, a truth value, a mapping) ends the loop body with [TypeError]
    before any trick is looked at: [sys.path] is unchanged and the observer
    made for the file is left idle. *)
Theorem python_path_not_a_sequence :
  forall (paths : PyVal) (observers : list nat) (tricks_file content : string)
         (d : list (string * PyVal)) (tricks : PyVal) (w : World),
    os_path_exists tricks_file = true ->
    read_text_file tricks_file = Ok content ->
    yaml_load content = Ok (VDict d) ->
    dict_lookup CONFIG_KEY_TRICKS d = Some tricks ->
    dict_lookup CONFIG_KEY_PYTHON_PATH d = Some paths ->
    is_scalar paths \/ is_mapping paths ->
    exists e,
      start_tricks_file observers tricks_file w =
        (Raise e, set_heap (heap w ++ [idle_observer]) w) /\
      is_type_error e.
Proof.
  intros paths observers tricks_file content d tricks w Hex Hr Hy Ht Hp Hshape.
  erewrite start_tricks_file_loaded by eauto. rewrite Hp.
  unfold add_to_sys_path, bind, lift.
  destruct paths; simpl in *; try (destruct Hshape as [[] | []]);
    eexists; (split; [reflexivity | exact I]).
Qed.

(** X15: a document without a [python-path] key leaves [sys.path] as it
    is, however the scheduling of its tricks ends, and its classes are
    searched on that path. *)
Theorem no_python_path_keeps_sys_path :
  forall (observers : list nat) (tricks_file content : string)
         (d : list (string * PyVal)) (tricks : PyVal)
         (w : World) (r : Result (list nat)) (w' : World),
    os_path_exists tricks_file = true ->
    read_text_file tricks_file = Ok content ->
    yaml_load content = Ok (VDict d) ->
    dict_lookup CONFIG_KEY_TRICKS d = Some tricks ->
    dict_lookup CONFIG_KEY_PYTHON_PATH d = None ->
    start_tricks_file observers tricks_file w = (r, w') ->
    sys_path w' = sys_path w /\
    exists evs,
      trace w' = trace w ++ evs /\
      forall search_path name,
        In (EvLoadClass search_path name) evs -> search_path = sys_path w.
Proof.
  intros observers tricks_file content d tricks w r w' Hex Hr Hy Ht Hp E.
  erewrite start_tricks_file_loaded in E by eauto. rewrite Hp in E.
  unfold bind at 1, ret in E.
  apply schedule_and_start_searches in E. exact E.
Qed.

(** X16: a document with an empty list of tricks is no error: its
    observer is started with no session, and [start()] is the only call
    made. *)
Theorem start_tricks_file_without_tricks :
  forall (observers : list nat) (tricks_file content : string)
         (d : list (string * PyVal)) (w : World),
    os_path_exists tricks_file = true ->
    read_text_file tricks_file = Ok content ->
    yaml_load content = Ok (VDict d) ->
    dict_lookup CONFIG_KEY_TRICKS d = Some (VList []) ->
    dict_lookup CONFIG_KEY_PYTHON_PATH d = None ->
    observer_fault (length (heap w)) CallStart = None ->
    start_tricks_file observers tricks_file w =
      (Ok (observers ++ [length (heap w)]),
       {| sys_path := sys_path w;
          uuid_clock := uuid_clock w;
          heap := heap w ++ [{| state := Running; sessions := [] |}];
          trace := trace w ++ [EvCall (length (heap w)) CallStart] |}).
Proof.
  intros observers tricks_file content d w Hex Hr Hy Ht Hp Hf.
  erewrite start_tricks_file_loaded by eauto. rewrite Hp.
  unfold bind at 1, ret. unfold bind at 1. simpl.
  unfold bind at 1, observer_start.
  rewrite (observer_call_ok (length (heap w)) CallStart do_start _ idle_observer tt
             {| state := Running; sessions := [] |});
    [| | exact Hf | reflexivity].
  - unfold ret, set_heap, log_event. simpl. do 2 f_equal.
    rewrite insert_app_r_alt by (simpl; lia).
    now rewrite Nat.sub_diag.
  - simpl. rewrite lookup_app_r by lia. now rewrite Nat.sub_diag.
Qed.

End StartExtras.

(** ** Whole runs of [tricks_from] *)

Section RunExtras.
Context `{Platform}.

(** X17: without tricks files [tricks_from] only extends [sys.path] and
    sleeps: on the interrupt it returns, having made no observer and no
    call; without an interrupt it never returns. *)
Theorem tricks_from_without_files :
  forall (path_spec : string) (n : nat) (w : World),
    let args := {| python_path := path_spec; files := [] |} in
    let w0 := set_sys_path
                (map VStr (path_split path_spec os_path_sep) ++ sys_path w) w in
    tricks_from args (Some n) w = (Ok tt, add_events (sleeps (S n)) w0) /\
    tricks_from args None w = (Blocks, w0).
Proof.
  intros path_spec n w args w0. unfold tricks_from.
  split; erewrite bind_ok by apply add_to_sys_path_list;
    simpl files; simpl for_fold; unfold bind at 1, ret.
  - rewrite wait_and_stop_interrupted. reflexivity.
  - reflexivity.
Qed.

(** X18: when every tricks file was started and no interrupt comes,
    [tricks_from] never returns, and its observers, one for each file, stay
    running. *)
Theorem tricks_from_never_interrupted :
  forall (args : Args) (observers : list nat) (w w1 : World),
    for_fold (files args) [] start_tricks_file
      (set_sys_path (map VStr (path_split (python_path args) os_path_sep) ++ sys_path w) w)
      = (Ok observers, w1) ->
    tricks_from args None w = (Blocks, w1) /\
    all_running w1 observers /\
    length observers = length (files args).
Proof.
  intros args observers w w1 Hstart.
  destruct (tricks_from_started args observers None w w1 Hstart) as (-> & Hrun & Hlen).
  repeat split; auto; apply Hrun.
Qed.

(** X19: a run in which every tricks file was started, the interrupt came
    and no call was refused returns normally: after the sleeps the
    observers are unscheduled and stopped in the order of the files, then
    joined in that order, and each of them ends stopped with no session. *)
Theorem tricks_from_interrupted_run :
  forall (args : Args) (observers : list nat) (n : nat) (w w1 : World),
    for_fold (files args) [] start_tricks_file
      (set_sys_path (map VStr (path_split (python_path args) os_path_sep) ++ sys_path w) w)
      = (Ok observers, w1) ->
    Forall (fun o => never_refused o [CallUnschedule None; CallStop; CallJoin])
           observers ->
    tricks_from args (Some n) w =
      (Ok tt,
       {| sys_path := sys_path w1;
          uuid_clock := uuid_clock w1;
          heap := stop_all observers (heap w1);
          trace := trace w1 ++ sleeps (S n) ++
                   concat (map stop_calls observers) ++ map join_call observers |}) /\
    Forall (fun o => stop_all observers (heap w1) !! o = Some stopped_observer)
           observers /\
    length (stop_all observers (heap w1)) = length (heap w1) /\
    length observers = length (files args).
Proof.
  intros args observers n w w1 Hstart Hnf.
  destruct (tricks_from_started args observers (Some n) w w1 Hstart)
    as (-> & Hrun & Hlen).
  split; [|split; [now apply all_running_stopped | split;
                   [apply stop_all_length | exact Hlen]]].
  rewrite wait_and_stop_interrupted.
  erewrite bind_ok.
  2:{ apply stop_observers_ok; [exact Hrun|].
      eapply Forall_impl; [exact Hnf|]. intros o Ho.
      inversion Ho as [|? ? H1 Ho']; subst.
      inversion Ho' as [|? ? H2 _]; subst.
      repeat constructor; assumption. }
  rewrite join_observers_ok.
  - unfold add_events. simpl. now rewrite <- !app_assoc.
  - simpl. now apply all_running_stopped.
  - eapply Forall_impl; [exact Hnf|]. intros o Ho.
    inversion Ho as [|? ? H1 Ho']; subst.
    inversion Ho' as [|? ? H2 Ho'']; subst.
    inversion Ho'' as [|? ? H3 _]; subst.
    repeat constructor; assumption.
Qed.

End RunExtras.

(** ** [observe_with] *)

Section ObserveFacts.
Context `{Platform}.

Lemma keep_session_other_sessions i (event_handler : Handler) paths rec l :
  List.filter (keep_session (Some i)) (l ++ [watch_session i event_handler paths rec]) =
  List.filter (keep_session (Some i)) l.
Proof.
  rewrite List.filter_app. simpl.
  rewrite bool_decide_true by reflexivity. simpl. apply app_nil_r.
Qed.

(** The two calls before the sleep. *)
Lemma observe_with_started o i event_handler paths rec w h :
  heap w !! o = Some h ->
  state h = Idle ->
  never_refused o [CallSchedule i paths rec; CallStart] ->
  bind (observer_schedule o i event_handler paths rec) (fun _ => observer_start o) w =
    (Ok tt,
     {| sys_path := sys_path w; uuid_clock := uuid_clock w;
        heap := <[o := {| state := Running;
                          sessions := sessions h ++
                                      [watch_session i event_handler paths rec] |}]>
                  (heap w);
        trace := trace w ++ watch_calls o i paths rec |}).
Proof.
  intros Hh Hs Hf. inversion Hf as [|? ? Hf1 Hf']; subst.
  inversion Hf' as [|? ? Hf2 _]; subst.
  assert (Hlt : o < length (heap w)) by (eapply lookup_lt_Some; eauto).
  unfold observer_schedule.
  erewrite bind_ok.
  2:{ eapply observer_call_ok; [exact Hh | exact Hf1|].
      unfold do_schedule. rewrite Hs. reflexivity. }
  unfold observer_start.
  erewrite observer_call_ok;
    [| simpl; now apply list_lookup_insert_eq | exact Hf2 | reflexivity].
  unfold set_heap, log_event, watch_calls, watch_session. simpl.
  now rewrite list_insert_insert_eq, <- app_assoc.
Qed.

(** The three calls after the interrupt. *)
Lemma observe_with_stopped o i w h :
  heap w !! o = Some h ->
  state h = Running ->
  never_refused o [CallUnschedule (Some i); CallStop; CallJoin] ->
  bind (bind (observer_unschedule o (Some i)) (fun _ => observer_stop o))
       (fun _ => observer_join o) w =
    (Ok tt,
     {| sys_path := sys_path w; uuid_clock := uuid_clock w;
        heap := <[o := {| state := Stopped;
                          sessions := List.filter (keep_session (Some i)) (sessions h) |}]>
                  (heap w);
        trace := trace w ++ unwatch_calls o i |}).
Proof.
  intros Hh Hs Hf. inversion Hf as [|? ? Hf1 Hf']; subst.
  inversion Hf' as [|? ? Hf2 Hf'']; subst.
  inversion Hf'' as [|? ? Hf3 _]; subst.
  assert (Hlt : o < length (heap w)) by (eapply lookup_lt_Some; eauto).
  unfold observer_unschedule, observer_stop, observer_join.
  erewrite bind_ok.
  2:{ erewrite bind_ok.
      2:{ eapply observer_call_ok; [exact Hh | exact Hf1|].
          unfold do_unschedule. rewrite Hs. reflexivity. }
      eapply observer_call_ok;
        [simpl; now apply list_lookup_insert_eq | exact Hf2 | reflexivity]. }
  set (stopped := {| state := Stopped;
                     sessions := List.filter (keep_session (Some i)) (sessions h) |}).
  rewrite (observer_call_ok o CallJoin do_join _ stopped tt stopped);
    [| | exact Hf3 | reflexivity].
  - unfold set_heap, log_event, unwatch_calls. simpl.
    now rewrite !list_insert_insert_eq, <- !app_assoc.
  - simpl. rewrite list_insert_insert_eq.
    apply list_lookup_insert_eq. exact Hlt.
Qed.

Lemma observe_with_interrupted o i event_handler paths rec n w h :
  heap w !! o = Some h ->
  state h = Idle ->
  never_refused o [CallSchedule i paths rec; CallStart;
                   CallUnschedule (Some i); CallStop; CallJoin] ->
  observe_with o i event_handler paths rec (Some n) w =
    (Ok tt,
     {| sys_path := sys_path w; uuid_clock := uuid_clock w;
        heap := <[o := {| state := Stopped;
                          sessions := List.filter (keep_session (Some i)) (sessions h) |}]>
                  (heap w);
        trace := trace w ++ watch_calls o i paths rec ++ sleeps (S n) ++
                 unwatch_calls o i |}).
Proof.
  intros Hh Hs Hf.
  assert (Hlt : o < length (heap w)) by (eapply lookup_lt_Some; eauto).
  assert (Hf1 : never_refused o [CallSchedule i paths rec; CallStart]).
  { inversion Hf as [|? ? H1 Hf']; subst. inversion Hf' as [|? ? H2 _]; subst.
    repeat constructor; assumption. }
  assert (Hf2 : never_refused o [CallUnschedule (Some i); CallStop; CallJoin]).
  { inversion Hf as [|? ? _ Hf']; subst. inversion Hf' as [|? ? _ Hf'']; subst.
    exact Hf''. }
  pose proof (observe_with_started o i event_handler paths rec w h Hh Hs Hf1) as Hstart.
  set (w1 := {| sys_path := sys_path w; uuid_clock := uuid_clock w;
                heap := <[o := {| state := Running;
                                  sessions := sessions h ++
                                    [watch_session i event_handler paths rec] |}]>
                          (heap w);
                trace := trace w ++ watch_calls o i paths rec |}) in *.
  assert (Hstop := observe_with_stopped o i (add_events (sleeps (S n)) w1)
                     {| state := Running;
                        sessions := sessions h ++
                                    [watch_session i event_handler paths rec] |}
                     (list_lookup_insert_eq _ _ _ Hlt) eq_refl Hf2).
  assert (Hrun : observe_with o i event_handler paths rec (Some n) w =
                 bind (bind (observer_unschedule o (Some i)) (fun _ => observer_stop o))
                      (fun _ => observer_join o) (add_events (sleeps (S n)) w1)).
  { unfold observe_with.
    unfold bind at 1. unfold bind at 1 in Hstart.
    destruct (observer_schedule o i event_handler paths rec w) as [[a| |] w2];
      try discriminate.
    unfold bind at 1. rewrite Hstart.
    unfold bind at 1 3, try_except_KeyboardInterrupt. simpl sleep_forever.
    rewrite sleep_until_interrupt_raises. reflexivity. }
  rewrite Hrun, Hstop. subst w1. unfold add_events. simpl.
  rewrite list_insert_insert_eq, keep_session_other_sessions.
  now rewrite <- !app_assoc.
Qed.

Lemma observe_with_blocked o i event_handler paths rec w h :
  heap w !! o = Some h ->
  state h = Idle ->
  never_refused o [CallSchedule i paths rec; CallStart] ->
  observe_with o i event_handler paths rec None w =
    (Blocks,
     {| sys_path := sys_path w; uuid_clock := uuid_clock w;
        heap := <[o := {| state := Running;
                          sessions := sessions h ++
                                      [watch_session i event_handler paths rec] |}]>
                  (heap w);
        trace := trace w ++ watch_calls o i paths rec |}).
Proof.
  intros Hh Hs Hf.
  pose proof (observe_with_started o i event_handler paths rec w h Hh Hs Hf) as Hstart.
  unfold observe_with.
  unfold bind at 1. unfold bind at 1 in Hstart.
  destruct (observer_schedule o i event_handler paths rec w) as [[a| |] w1];
    try discriminate.
  unfold bind at 1. rewrite Hstart. reflexivity.
Qed.

End ObserveFacts.

Section ObserveExtras.
Context `{Platform}.

(** X20: on an idle observer, with no call refused, [observe_with]
    schedules the session and starts the observer; without an interrupt it
    never returns and the observer stays running with the session; on the
    interrupt it unschedules the session by its identifier, stops and joins
    the observer and returns.  The sessions the observer held under other
    identifiers are still registered in the end. *)
Theorem observe_with_watches_until_interrupt :
  forall (o : nat) (i : Identifier) (event_handler : Handler)
         (paths : list string) (rec : bool) (n : nat)
         (w : World) (h : ObserverHandle),
    heap w !! o = Some h ->
    state h = Idle ->
    never_refused o [CallSchedule i paths rec; CallStart;
                     CallUnschedule (Some i); CallStop; CallJoin] ->
    observe_with o i event_handler paths rec None w =
      (Blocks,
       {| sys_path := sys_path w; uuid_clock := uuid_clock w;
          heap := <[o := {| state := Running;
                            sessions := sessions h ++
                                        [watch_session i event_handler paths rec] |}]>
                    (heap w);
          trace := trace w ++ watch_calls o i paths rec |}) /\
    observe_with o i event_handler paths rec (Some n) w =
      (Ok tt,
       {| sys_path := sys_path w; uuid_clock := uuid_clock w;
          heap := <[o := {| state := Stopped;
                            sessions := List.filter (keep_session (Some i)) (sessions h) |}]>
                    (heap w);
          trace := trace w ++ watch_calls o i paths rec ++ sleeps (S n) ++
                   unwatch_calls o i |}) /\
    (forall s, In s (sessions h) -> identifier s <> i ->
               In s (List.filter (keep_session (Some i)) (sessions h))).
Proof.
  intros o i event_handler paths rec n w h Hh Hs Hf. split; [|split].
  - apply observe_with_blocked; auto.
    inversion Hf as [|? ? H1 Hf']; subst. inversion Hf' as [|? ? H2 _]; subst.
    repeat constructor; assumption.
  - now apply observe_with_interrupted.
  - intros s Hin Hne. apply List.filter_In. split; [exact Hin|].
    simpl. now rewrite bool_decide_false.
Qed.

(** X21: a refused call ends [observe_with] at once, and nothing is
    undone.  When [start()] is refused the session stays scheduled on the
    observer, which is not running; when [unschedule()] is refused after
    the interrupt, the observer is neither stopped nor joined and stays
    running with the session. *)
Theorem observe_with_refused_call_leaves_session :
  forall (o : nat) (i : Identifier) (event_handler : Handler)
         (paths : list string) (rec : bool) (interrupt : option nat) (n : nat)
         (e : Exn) (w : World) (h : ObserverHandle),
    heap w !! o = Some h ->
    state h = Idle ->
    observer_fault o (CallSchedule i paths rec) = None ->
    (observer_fault o CallStart = Some e ->
     observe_with o i event_handler paths rec interrupt w =
       (Raise e,
        {| sys_path := sys_path w; uuid_clock := uuid_clock w;
           heap := <[o := {| state := Idle;
                             sessions := sessions h ++
                                         [watch_session i event_handler paths rec] |}]>
                     (heap w);
           trace := trace w ++ watch_calls o i paths rec |})) /\
    (observer_fault o CallStart = None ->
     observer_fault o (CallUnschedule (Some i)) = Some e ->
     observe_with o i event_handler paths rec (Some n) w =
       (Raise e,
        {| sys_path := sys_path w; uuid_clock := uuid_clock w;
           heap := <[o := {| state := Running;
                             sessions := sessions h ++
                                         [watch_session i event_handler paths rec] |}]>
                     (heap w);
           trace := trace w ++ watch_calls o i paths rec ++ sleeps (S n) ++
                    [EvCall o (CallUnschedule (Some i))] |})).
Proof.
  intros o i event_handler paths rec interrupt n e w h Hh Hs Hsched.
  assert (Hlt : o < length (heap w)) by (eapply lookup_lt_Some; eauto).
  split.
  - intros Hstart. unfold observe_with, observer_schedule.
    erewrite bind_ok.
    2:{ eapply observer_call_ok; [exact Hh | exact Hsched|].
        unfold do_schedule. rewrite Hs. reflexivity. }
    erewrite bind_raise; [reflexivity|].
    unfold observer_start. erewrite observer_call_fault;
      [| simpl; now apply list_lookup_insert_eq | exact Hstart].
    unfold log_event, set_heap, watch_calls, watch_session. simpl.
    now rewrite <- app_assoc.
  - intros Hstart Hun.
    pose proof (observe_with_started o i event_handler paths rec w h Hh Hs) as Hrun.
    unfold observe_with.
    unfold bind at 1. unfold bind at 1 in Hrun.
    destruct (observer_schedule o i event_handler paths rec w) as [[a| |] w1];
      try (now discriminate Hrun; repeat constructor).
    unfold bind at 1. rewrite Hrun by (repeat constructor; assumption).
    erewrite bind_raise; [reflexivity|].
    unfold try_except_KeyboardInterrupt. simpl sleep_forever.
    rewrite sleep_until_interrupt_raises.
    erewrite bind_raise; [reflexivity|].
    unfold observer_unschedule. erewrite observer_call_fault;
      [| simpl; now apply list_lookup_insert_eq | exact Hun].
    unfold log_event, add_events. simpl. now rewrite <- !app_assoc.
Qed.

End ObserveExtras.

(** ** [log] and [shell_command] *)

Section WatchCommandExtras.
Context `{Commands}.

Lemma observe_new_observer i (event_handler : Handler) paths rec w :
  never_refused (length (heap w)) [CallSchedule i paths rec; CallStart;
                                   CallUnschedule (Some i); CallStop; CallJoin] ->
  forall n,
    bind Observer (fun observer =>
      observe_with observer i event_handler paths rec (Some n)) w =
      (Ok tt,
       {| sys_path := sys_path w; uuid_clock := uuid_clock w;
          heap := heap w ++ [stopped_observer];
          trace := trace w ++ watch_calls (length (heap w)) i paths rec ++
                   sleeps (S n) ++ unwatch_calls (length (heap w)) i |}).
Proof.
  intros Hf n. unfold bind at 1, Observer.
  erewrite observe_with_interrupted;
    [| simpl; rewrite lookup_app_r by lia; now rewrite Nat.sub_diag
     | reflexivity | exact Hf].
  simpl. do 2 f_equal.
  rewrite insert_app_r_alt by (simpl; lia). now rewrite Nat.sub_diag.
Qed.

Lemma observe_new_observer_blocked i (event_handler : Handler) paths rec w :
  never_refused (length (heap w)) [CallSchedule i paths rec; CallStart] ->
  bind Observer (fun observer =>
    observe_with observer i event_handler paths rec None) w =
    (Blocks,
     {| sys_path := sys_path w; uuid_clock := uuid_clock w;
        heap := heap w ++ [{| state := Running;
                              sessions := [watch_session i event_handler paths rec] |}];
        trace := trace w ++ watch_calls (length (heap w)) i paths rec |}).
Proof.
  intros Hf. unfold bind at 1, Observer.
  erewrite observe_with_blocked;
    [| simpl; rewrite lookup_app_r by lia; now rewrite Nat.sub_diag
     | reflexivity | exact Hf].
  simpl. do 2 f_equal.
  rewrite insert_app_r_alt by (simpl; lia). now rewrite Nat.sub_diag.
Qed.

(** X22: [log] makes the logger trick from the two pattern
    specifications as [parse_patterns] splits them, makes a new observer
    and watches the directories under the identifier [logger] with the
    recursive flag given: the session is there while it waits, and after
    the interrupt the observer is left stopped, without session, and
    joined. *)
Theorem log_watches_with_logger_trick :
  forall (args : LogArgs) (n : nat) (w : World) (event_handler : Handler),
    let parsed := parse_patterns (log_patterns args) (log_ignore_patterns args) in
    let o := length (heap w) in
    let i := IdName "logger" in
    LoggerTrick (fst parsed) (snd parsed) (log_ignore_directories args)
      = Ok event_handler ->
    import_observer (log_observer_class args) = Ok tt ->
    never_refused o [CallSchedule i (log_directories args) (log_recursive args);
                     CallStart; CallUnschedule (Some i); CallStop; CallJoin] ->
    log args None w =
      (Blocks,
       {| sys_path := sys_path w; uuid_clock := uuid_clock w;
          heap := heap w ++
                  [{| state := Running;
                      sessions := [watch_session i event_handler (log_directories args)
                                     (log_recursive args)] |}];
          trace := trace w ++
                   watch_calls o i (log_directories args) (log_recursive args) |}) /\
    log args (Some n) w =
      (Ok tt,
       {| sys_path := sys_path w; uuid_clock := uuid_clock w;
          heap := heap w ++ [stopped_observer];
          trace := trace w ++
                   watch_calls o i (log_directories args) (log_recursive args) ++
                   sleeps (S n) ++ unwatch_calls o i |}).
Proof.
  intros args n w event_handler parsed o i Htrick Himport Hf.
  unfold log. fold parsed. rewrite (surjective_pairing parsed).
  unfold bind at 1 3, lift. rewrite Htrick.
  unfold bind at 1 3. rewrite Himport.
  split.
  - apply observe_new_observer_blocked.
    inversion Hf as [|? ? H1 Hf']; subst. inversion Hf' as [|? ? H2 _]; subst.
    repeat constructor; assumption.
  - now apply observe_new_observer.
Qed.

(** X23: when the logger trick cannot be made, or the observer class
    chosen by the flags cannot be imported, [log] ends with that error
    before any observer is made: the world is as it was. *)
Theorem log_fails_before_observing :
  forall (args : LogArgs) (interrupt : option nat) (w : World) (e : Exn),
    let parsed := parse_patterns (log_patterns args) (log_ignore_patterns args) in
    LoggerTrick (fst parsed) (snd parsed) (log_ignore_directories args) = Raise e \/
    (exists event_handler,
       LoggerTrick (fst parsed) (snd parsed) (log_ignore_directories args)
         = Ok event_handler /\
       import_observer (log_observer_class args) = Raise e) ->
    log args interrupt w = (Raise e, w).
Proof.
  intros args interrupt w e parsed Hfail.
  unfold log. fold parsed. rewrite (surjective_pairing parsed).
  unfold bind at 1, lift.
  destruct Hfail as [-> | (event_handler & -> & Himport)]; [reflexivity|].
  unfold bind at 1. now rewrite Himport.
Qed.

(** X24: the order in which [log] looks at its flags: polling is used
    whenever its flag is set; the FSEvents observer only when its flag is
    the only one set, so that the inotify flag wins over it; the default
    observer when no flag is set. *)
Theorem log_observer_class_priority :
  forall (args : LogArgs),
    (log_observer_class args = PollingObserver <-> debug_force_polling args = true) /\
    (log_observer_class args = FSEventsObserver <->
     debug_force_fsevents args = true /\
     debug_force_polling args = false /\ debug_force_kqueue args = false /\
     debug_force_win32 args = false /\ debug_force_win32ioc args = false /\
     debug_force_inotify args = false) /\
    (log_observer_class args = DefaultObserver <->
     debug_force_polling args = false /\ debug_force_kqueue args = false /\
     debug_force_win32 args = false /\ debug_force_win32ioc args = false /\
     debug_force_inotify args = false /\ debug_force_fsevents args = false).
Proof.
  intros args. unfold log_observer_class.
  destruct (debug_force_polling args), (debug_force_kqueue args),
    (debug_force_win32 args), (debug_force_win32ioc args),
    (debug_force_inotify args), (debug_force_fsevents args);
    repeat split; intros; try discriminate; try tauto;
    repeat match goal with Hc : _ /\ _ |- _ => destruct Hc end; discriminate.
Qed.

(** X25: [shell_command] gives the trick no command when the command is
    the empty string or absent, and the text otherwise; it makes a new
    observer and watches the directories under the identifier
    [shell-command]; after the interrupt the observer is left stopped and
    joined. *)
Theorem shell_command_watches_with_shell_trick :
  forall (args : ShellArgs) (n : nat) (w : World) (event_handler : Handler),
    let parsed := parse_patterns (shell_patterns args) (shell_ignore_patterns args) in
    let given :=
      match command args with
      | Some (String c text) => Some (String c text)
      | Some EmptyString | None => None
      end in
    let o := length (heap w) in
    let i := IdName "shell-command" in
    ShellCommandTrick given (fst parsed) (snd parsed) (shell_ignore_directories args)
      = Ok event_handler ->
    never_refused o [CallSchedule i (shell_directories args) (shell_recursive args);
                     CallStart; CallUnschedule (Some i); CallStop; CallJoin] ->
    shell_command args None w =
      (Blocks,
       {| sys_path := sys_path w; uuid_clock := uuid_clock w;
          heap := heap w ++
                  [{| state := Running;
                      sessions := [watch_session i event_handler (shell_directories args)
                                     (shell_recursive args)] |}];
          trace := trace w ++
                   watch_calls o i (shell_directories args) (shell_recursive args) |}) /\
    shell_command args (Some n) w =
      (Ok tt,
       {| sys_path := sys_path w; uuid_clock := uuid_clock w;
          heap := heap w ++ [stopped_observer];
          trace := trace w ++
                   watch_calls o i (shell_directories args) (shell_recursive args) ++
                   sleeps (S n) ++ unwatch_calls o i |}).
Proof.
  intros args n w event_handler parsed given o i Htrick Hf.
  assert (Hgiven : normalized_command (command args) = given).
  { subst given. unfold normalized_command.
    destruct (command args) as [[|c text]|]; reflexivity. }
  unfold shell_command. fold parsed. rewrite (surjective_pairing parsed), Hgiven.
  unfold bind at 1 3, lift. rewrite Htrick.
  split.
  - apply observe_new_observer_blocked.
    inversion Hf as [|? ? H1 Hf']; subst. inversion Hf' as [|? ? H2 _]; subst.
    repeat constructor; assumption.
  - now apply observe_new_observer.
Qed.

End WatchCommandExtras.

(** ** [tricks_generate_yaml] *)

Module AppendFacts.

Lemma append_assoc (a b c : string) : (a +:+ b) +:+ c = a +:+ (b +:+ c).
Proof.
  induction a as [|x a IH]; [reflexivity|].
  change (String x ((a +:+ b) +:+ c) = String x (a +:+ (b +:+ c))).
  now rewrite IH.
Qed.

Lemma append_empty_r (a : string) : a +:+ EmptyString = a.
Proof.
  induction a as [|x a IH]; [reflexivity|].
  change (String x (a +:+ EmptyString) = String x a).
  now rewrite IH.
Qed.



End AppendFacts.

Section YamlFacts.
Context `{Commands}.

Lemma generate_content_from paths texts :
  forall acc w,
    Forall2 (yields (sys_path w)) paths texts ->
    for_fold paths acc (fun output trick_path =>
      bind (call_load_class trick_path) (fun TrickClass =>
        bind (lift (generate_yaml TrickClass)) (fun text =>
          ret (output +:+ text)))) w =
    (Ok (acc +:+ join_all texts),
     add_events (map (EvLoadClass (sys_path w)) paths) w).
Proof.
  intros acc w Hall. remember (sys_path w) as sp eqn:Hsp.
  revert acc w Hsp.
  induction Hall as [|path text paths texts (class & Hload & Hgen) Hall IH];
    intros acc w Hsp; simpl.
  - unfold ret, add_events. rewrite AppendFacts.append_empty_r, app_nil_r.
    destruct w; reflexivity.
  - subst sp. unfold bind at 1. unfold bind at 1, call_load_class. rewrite Hload.
    unfold bind at 1, lift. rewrite Hgen. unfold ret.
    rewrite IH by reflexivity.
    unfold add_events, log_event. simpl.
    now rewrite AppendFacts.append_assoc, <- app_assoc.
Qed.

Lemma generate_content_ok paths texts w :
  Forall2 (yields (sys_path w)) paths texts ->
  generate_content paths w =
    (Ok (join_all texts), add_events (map (EvLoadClass (sys_path w)) paths) w).
Proof.
  intros Hall. unfold generate_content.
  now rewrite (generate_content_from paths texts EmptyString w Hall).
Qed.

Lemma generate_content_fails pre bad post texts e w :
  Forall2 (yields (sys_path w)) pre texts ->
  yield_fails (sys_path w) bad e ->
  generate_content (pre ++ bad :: post) w =
    (Raise e, add_events (map (EvLoadClass (sys_path w)) (pre ++ [bad])) w).
Proof.
  intros Hall Hbad. unfold generate_content.
  rewrite for_fold_app.
  erewrite bind_ok by (apply generate_content_from; exact Hall).
  simpl. apply bind_raise.
  unfold add_events, call_load_class, lift, log_event. simpl.
  rewrite map_app, app_assoc. simpl.
  destruct Hbad as [Hload | (class & Hload & Hgen)].
  - unfold bind. simpl. now rewrite Hload.
  - unfold bind. simpl. now rewrite Hload, Hgen.
Qed.

(** The world in which the classes are searched. *)
Lemma tricks_generate_yaml_run args out w r w1 :
  (forall w0, sys_path w0 = map VStr (path_split (yaml_python_path args) os_path_sep)
                            ++ sys_path w ->
              heap w0 = heap w -> trace w0 = trace w -> uuid_clock w0 = uuid_clock w ->
              generate_content (trick_paths args) w0 = (r, w1 w0)) ->
  tricks_generate_yaml args out w =
    let w0 := set_sys_path (map VStr (path_split (yaml_python_path args) os_path_sep)
                            ++ sys_path w) w in
    match r with
    | Ok content =>
        (Ok tt, w1 w0,
         write_content args
           (yaml_header (path_split (yaml_python_path args) os_path_sep)) content out)
    | Raise e => (Raise e, w1 w0, out)
    | Blocks => (Blocks, w1 w0, out)
    end.
Proof.
  intros Hgen. unfold tricks_generate_yaml.
  erewrite bind_ok by apply add_to_sys_path_list.
  rewrite Hgen by reflexivity. destruct r; reflexivity.
Qed.

(** X26: when a class of [trick_paths] is not found, or cannot give its
    text, [tricks_generate_yaml] ends with that error and has written
    nothing, neither to standard output nor to a file, though the classes
    before it gave their text; the classes after it are not searched, and
    [sys.path] stays extended. *)
Theorem tricks_generate_yaml_writes_nothing_on_failure :
  forall (args : YamlArgs) (pre : list string) (bad : string) (post : list string)
         (texts : list string) (e : Exn) (out : Outputs) (w : World),
    let search_path :=
      map VStr (path_split (yaml_python_path args) os_path_sep) ++ sys_path w in
    trick_paths args = pre ++ bad :: post ->
    Forall2 (yields search_path) pre texts ->
    yield_fails search_path bad e ->
    tricks_generate_yaml args out w =
      (Raise e,
       {| sys_path := search_path; uuid_clock := uuid_clock w; heap := heap w;
          trace := trace w ++ map (EvLoadClass search_path) (pre ++ [bad]) |},
       out).
Proof.
  intros args pre bad post texts e out w search_path Hpaths Hall Hbad.
  rewrite (tricks_generate_yaml_run args out w (Raise e)
             (fun w0 => add_events (map (EvLoadClass (sys_path w0)) (pre ++ [bad])) w0)).
  - reflexivity.
  - intros w0 Hsp _ _ _. rewrite Hpaths.
    apply (generate_content_fails pre bad post texts); now rewrite Hsp.
Qed.

(** X27: without [--append-to-file], [tricks_generate_yaml] writes to
    standard output, after what is there, the texts of the classes in the
    order of [trick_paths], with the header in front unless [--append-only]
    is given; no file is touched. *)
Theorem tricks_generate_yaml_to_stdout :
  forall (args : YamlArgs) (texts : list string) (out : Outputs) (w : World),
    let python_paths := path_split (yaml_python_path args) os_path_sep in
    let search_path := map VStr python_paths ++ sys_path w in
    append_to_file args = None ->
    Forall2 (yields search_path) (trick_paths args) texts ->
    tricks_generate_yaml args out w =
      (Ok tt,
       {| sys_path := search_path; uuid_clock := uuid_clock w; heap := heap w;
          trace := trace w ++ map (EvLoadClass search_path) (trick_paths args) |},
       {| stdout := stdout out +:+
                    (if append_only args then join_all texts
                     else yaml_header python_paths +:+ join_all texts);
          disk := disk out |}).
Proof.
  intros args texts out w python_paths search_path Hnone Hall.
  rewrite (tricks_generate_yaml_run args out w (Ok (join_all texts))
             (fun w0 => add_events (map (EvLoadClass (sys_path w0)) (trick_paths args)) w0)).
  - unfold write_content. rewrite Hnone.
    destruct (append_only args); reflexivity.
  - intros w0 Hsp _ _ _. apply generate_content_ok. now rewrite Hsp.
Qed.



End YamlFacts.

Section PathOptionExtras.
Context `{Platform}.

(** X30: the [--python-path] option is split at [os.path.sep], the
    separator of the directories of one path: given a path of two
    directory names, [tricks_from] puts the two names on [sys.path] as two
    entries, not the path as one. *)
Theorem tricks_from_python_path_split_at_path_separator :
  forall (a b : string) (n : nat) (w : World),
    Str.has_char os_path_sep a = false ->
    Str.has_char os_path_sep b = false ->
    sys_path (snd (tricks_from
                     {| python_path := a +:+ String os_path_sep b; files := [] |}
                     (Some n) w))
    = VStr a :: VStr b :: sys_path w.
Proof.
  intros a b n w Ha Hb. unfold tricks_from.
  erewrite bind_ok by apply add_to_sys_path_list.
  simpl files. simpl for_fold. unfold bind at 1, ret.
  rewrite wait_and_stop_interrupted. simpl.
  unfold path_split.
  now rewrite SplitFacts.split_app, !SplitFacts.split_whole.
Qed.

End PathOptionExtras.

(** * The further properties on the small platforms *)

Module OnShapes.

Import Demo Shapes.

Lemma path_split_join_witness :
  path_split (Str.join ":" ["/opt/a"; "/opt/b"; ""]) ":" = ["/opt/a"; "/opt/b"; ""].
Proof.
  apply (path_split_join ":" ["/opt/a"; "/opt/b"; ""]).
  - discriminate.
  - repeat constructor.
Defined.

Lemma add_to_sys_path_at_index_witness :
  add_to_sys_path (H := calm) (VList [VStr "x"; VStr "y"]) 1 (world calm) =
    (Ok tt,
     set_sys_path [VStr "/opt/tricks"; VStr "x"; VStr "y"; VStr "/usr/lib/python"]
       (world calm)).
Proof.
  apply (add_to_sys_path_at_index (H := calm) [VStr "x"; VStr "y"] 1 (world calm)).
  simpl. lia.
Defined.

Lemma add_to_sys_path_past_end_reverses_witness :
  add_to_sys_path (H := calm) (VList [VStr "x"; VStr "y"]) 5 (world calm) =
    (Ok tt,
     set_sys_path [VStr "/opt/tricks"; VStr "/usr/lib/python"; VStr "y"; VStr "x"]
       (world calm)).
Proof.
  apply (add_to_sys_path_past_end_reverses (H := calm) [VStr "x"; VStr "y"] 5 (world calm)).
  simpl. lia.
Defined.

Lemma schedule_tricks_nothing_to_schedule_witness :
  schedule_tricks (H := quiet) 7 (VList [VDict []; VDict []]) "/srv/a" (one_idle quiet)
  = (Ok tt, one_idle quiet).
Proof.
  apply (schedule_tricks_nothing_to_schedule (H := quiet) 7 [[]; []] "/srv/a"
           (one_idle quiet)).
  reflexivity.
Defined.

Lemma schedule_tricks_entry_not_a_mapping_witness :
  fst (schedule_tricks (H := quiet) 0
         (VList [VDict [logger_item]; VStr "tricks.Shell"; VDict [shell_item]])
         "/srv/a" (one_idle quiet))
  = Raise (AttributeError "items").
Proof.
  etransitivity.
  { apply (f_equal fst).
    apply (schedule_tricks_entry_not_a_mapping (H := quiet) 0 [[logger_item]]
             (VStr "tricks.Shell") [VDict [shell_item]]
             [("tricks.Logger", [VStr "*.py"], [])] "/srv/a" (one_idle quiet)
             (idle_observer (H := quiet))).
    - reflexivity.
    - left. reflexivity.
    - intros i. reflexivity.
    - repeat constructor. econstructor; reflexivity.
    - intros []. }
  reflexivity.
Defined.

Lemma schedule_tricks_trick_without_mapping_witness :
  fst (schedule_tricks (H := quiet) 0
         (VList [VDict [logger_item]; VDict [("tricks.Shell", VNone)]])
         "/srv/a" (one_idle quiet))
  = Raise (TypeError "argument is not iterable").
Proof.
  etransitivity.
  { apply (f_equal fst).
    apply (schedule_tricks_trick_without_mapping (H := quiet) 0 [[logger_item]]
             "tricks.Shell" VNone [] []
             [("tricks.Logger", [VStr "*.py"], [])] "/srv/a" (one_idle quiet)
             (idle_observer (H := quiet))).
    - reflexivity.
    - left. reflexivity.
    - intros i. reflexivity.
    - repeat constructor. econstructor; reflexivity.
    - exact I. }
  reflexivity.
Defined.

Lemma start_tricks_file_document_not_a_mapping_witness :
  exists e,
    start_tricks_file (H := calm) [] "/srv/none.yaml" (world calm) =
      (Raise e, set_heap [idle_observer (H := calm)] (world calm)) /\
    (is_type_error e \/ e = NameError "input_file").
Proof.
  apply (start_tricks_file_document_not_a_mapping (H := calm) [] "/srv/none.yaml"
           "/srv/none.yaml" VNone (world calm)).
  - reflexivity.
  - reflexivity.
  - reflexivity.
  - intros [].
Defined.

Lemma python_path_string_adds_characters_witness :
  sys_path (snd (start_tricks_file (H := calm) [] "/srv/chars.yaml" (world calm)))
  = [VStr "a"; VStr "b"; VStr "/opt/tricks"; VStr "/usr/lib/python"].
Proof.
  destruct (python_path_string_adds_characters (H := calm) "ab" [] "/srv/chars.yaml"
              "/srv/chars.yaml"
              [("python-path", VStr "ab"); ("tricks", VList [])] (VList [])
              (world calm)
              (fst (start_tricks_file (H := calm) [] "/srv/chars.yaml" (world calm)))
              (snd (start_tricks_file (H := calm) [] "/srv/chars.yaml" (world calm))))
    as [Hpath _].
  - reflexivity.
  - reflexivity.
  - reflexivity.
  - reflexivity.
  - reflexivity.
  - apply surjective_pairing.
  - exact Hpath.
Defined.

Lemma python_path_not_a_sequence_witness :
  exists e,
    start_tricks_file (H := calm) [] "/srv/number.yaml" (world calm) =
      (Raise e, set_heap [idle_observer (H := calm)] (world calm)) /\
    is_type_error e.
Proof.
  apply (python_path_not_a_sequence (H := calm) (VInt 3) [] "/srv/number.yaml"
           "/srv/number.yaml"
           [("python-path", VInt 3); ("tricks", VList [])] (VList []) (world calm)).
  - reflexivity.
  - reflexivity.
  - reflexivity.
  - reflexivity.
  - reflexivity.
  - left. exact I.
Defined.

Lemma no_python_path_keeps_sys_path_witness :
  sys_path (snd (start_tricks_file (H := calm) [] "/srv/plain.yaml" (world calm)))
  = [VStr "/opt/tricks"; VStr "/usr/lib/python"].
Proof.
  destruct (no_python_path_keeps_sys_path (H := calm) [] "/srv/plain.yaml"
              "/srv/plain.yaml"
              [("tricks", VList [VDict [logger_item]])] (VList [VDict [logger_item]])
              (world calm)
              (fst (start_tricks_file (H := calm) [] "/srv/plain.yaml" (world calm)))
              (snd (start_tricks_file (H := calm) [] "/srv/plain.yaml" (world calm))))
    as [Hpath _].
  - reflexivity.
  - reflexivity.
  - reflexivity.
  - reflexivity.
  - reflexivity.
  - apply surjective_pairing.
  - exact Hpath.
Defined.

Lemma start_tricks_file_without_tricks_witness :
  start_tricks_file (H := calm) [] "/srv/empty.yaml" (world calm) =
    (Ok [0],
     {| sys_path := [VStr "/opt/tricks"; VStr "/usr/lib/python"];
        uuid_clock := 0;
        heap := [{| state := Running; sessions := [] |}];
        trace := [EvCall 0 CallStart] |}).
Proof.
  apply (start_tricks_file_without_tricks (H := calm) [] "/srv/empty.yaml"
           "/srv/empty.yaml" [("tricks", VList [])] (world calm)).
  - reflexivity.
  - reflexivity.
  - reflexivity.
  - reflexivity.
  - reflexivity.
  - reflexivity.
Defined.

Lemma both_started_run :
  for_fold (H := quiet) (files two_tricks_args) [] start_tricks_file
    (set_sys_path
       (map VStr (path_split (python_path two_tricks_args) (os_path_sep (Platform := quiet)))
        ++ sys_path (initial quiet))
       (initial quiet))
  = (Ok [0; 1], both_started quiet).
Proof. vm_compute. reflexivity. Qed.

Lemma tricks_from_never_interrupted_witness :
  tricks_from (H := quiet) two_tricks_args None (initial quiet)
  = (Blocks, both_started quiet).
Proof.
  destruct (tricks_from_never_interrupted (H := quiet) two_tricks_args [0; 1]
              (initial quiet) (both_started quiet)) as [Hrun _].
  - exact both_started_run.
  - exact Hrun.
Defined.

Lemma tricks_from_interrupted_run_witness :
  fst (tricks_from (H := quiet) two_tricks_args (Some 2) (initial quiet)) = Ok tt.
Proof.
  destruct (tricks_from_interrupted_run (H := quiet) two_tricks_args [0; 1] 2
              (initial quiet) (both_started quiet)) as [Hrun _].
  - exact both_started_run.
  - repeat constructor.
  - rewrite Hrun. reflexivity.
Defined.

Lemma observe_with_watches_until_interrupt_witness :
  fst (observe_with (H := quiet) 0 (IdName "logger") ("tricks.Logger", [], [])
         ["/srv/a"] false (Some 1) (one_idle quiet))
  = Ok tt.
Proof.
  destruct (observe_with_watches_until_interrupt (H := quiet) 0 (IdName "logger")
              ("tricks.Logger", [], []) ["/srv/a"] false 1 (one_idle quiet)
              (idle_observer (H := quiet))) as (_ & Hrun & _).
  - reflexivity.
  - reflexivity.
  - repeat constructor.
  - rewrite Hrun. reflexivity.
Defined.

Lemma observe_with_refused_call_leaves_session_witness :
  fst (observe_with (H := no_start) 0 (IdName "logger") ("tricks.Logger", [], [])
         ["/srv/a"] false (Some 1) (one_idle no_start))
  = Raise (ObserverError "primitive failed").
Proof.
  destruct (observe_with_refused_call_leaves_session (H := no_start) 0 (IdName "logger")
              ("tricks.Logger", [], []) ["/srv/a"] false (Some 1) 1
              (ObserverError "primitive failed") (one_idle no_start)
              (idle_observer (H := no_start))) as [Hstart _].
  - reflexivity.
  - reflexivity.
  - reflexivity.
  - rewrite Hstart by reflexivity. reflexivity.
Defined.

Lemma log_watches_with_logger_trick_witness :
  log (H0 := tools) log_args (Some 0) (one_idle quiet) =
    (Ok tt,
     {| sys_path := sys_path (one_idle quiet); uuid_clock := 0;
        heap := [idle_observer (H := quiet); stopped_observer (H := quiet)];
        trace := [EvCall 1 (CallSchedule (IdName "logger") ["/srv/a"] true);
                  EvCall 1 CallStart; EvSleep;
                  EvCall 1 (CallUnschedule (Some (IdName "logger")));
                  EvCall 1 CallStop; EvCall 1 CallJoin] |}).
Proof.
  destruct (log_watches_with_logger_trick (H0 := tools) log_args 0 (one_idle quiet)
              ("LoggerTrick",
               [VList [VStr "*.py"; VStr "*.txt"]; VList []; VBool false], []))
    as [_ Hrun].
  - reflexivity.
  - reflexivity.
  - repeat constructor.
  - exact Hrun.
Defined.

Lemma log_fails_before_observing_witness :
  log (H0 := tools) kqueue_args (Some 0) (one_idle quiet) =
    (Raise (ImportError "observer"), one_idle quiet).
Proof.
  apply (log_fails_before_observing (H0 := tools) kqueue_args (Some 0) (one_idle quiet)).
  right. eexists. split; reflexivity.
Defined.

Lemma shell_command_watches_with_shell_trick_witness :
  shell_command (H0 := tools) shell_args None (one_idle quiet) =
    (Blocks,
     {| sys_path := sys_path (one_idle quiet); uuid_clock := 0;
        heap := [idle_observer (H := quiet);
                 {| state := Running;
                    sessions :=
                      [watch_session (H := quiet) (IdName "shell-command")
                         ("ShellCommandTrick",
                          [VNone; VList [VStr "*"]; VList [VStr "*.pyc"]; VBool true], [])
                         ["/srv/a"] false] |}];
        trace := [EvCall 1 (CallSchedule (IdName "shell-command") ["/srv/a"] false);
                  EvCall 1 CallStart] |}).
Proof.
  destruct (shell_command_watches_with_shell_trick (H0 := tools) shell_args 0
              (one_idle quiet)
              ("ShellCommandTrick",
               [VNone; VList [VStr "*"]; VList [VStr "*.pyc"]; VBool true], []))
    as [Hrun _].
  - reflexivity.
  - repeat constructor.
  - exact Hrun.
Defined.

Lemma tricks_generate_yaml_writes_nothing_on_failure_witness :
  let run := tricks_generate_yaml (H0 := tools)
               (yaml_args None false ["tricks.Logger"; "tricks.Missing"; "tricks.Shell"])
               blank (one_idle quiet) in
  fst (fst run) = Raise (ImportError "tricks.Missing") /\ snd run = blank.
Proof.
  intros run. subst run.
  rewrite (tricks_generate_yaml_writes_nothing_on_failure (H0 := tools)
             (yaml_args None false ["tricks.Logger"; "tricks.Missing"; "tricks.Shell"])
             ["tricks.Logger"] "tricks.Missing" ["tricks.Shell"]
             ["- tricks.Logger:" +:+ newline] (ImportError "tricks.Missing")
             blank (one_idle quiet)).
  - split; reflexivity.
  - reflexivity.
  - repeat constructor. eexists. split; reflexivity.
  - left. reflexivity.
Defined.

Lemma tricks_generate_yaml_to_stdout_witness :
  stdout (snd (tricks_generate_yaml (H0 := tools)
                 (yaml_args None false ["tricks.Logger"; "tricks.Shell"])
                 blank (one_idle quiet)))
  = "python-path: ." +:+ newline +:+ "tricks:" +:+ newline +:+
    "- tricks.Logger:" +:+ newline +:+ "- tricks.Shell:" +:+ newline.
Proof.
  rewrite (tricks_generate_yaml_to_stdout (H0 := tools)
             (yaml_args None false ["tricks.Logger"; "tricks.Shell"])
             ["- tricks.Logger:" +:+ newline; "- tricks.Shell:" +:+ newline]
             blank (one_idle quiet)).
  - reflexivity.
  - reflexivity.
  - repeat constructor; eexists; split; reflexivity.
Defined.



Lemma tricks_from_python_path_split_at_path_separator_witness :
  sys_path (snd (tricks_from (H := quiet)
                   {| python_path := "lib/tricks"; files := [] |}
                   (Some 0) (initial quiet)))
  = [VStr "lib"; VStr "tricks"; VStr "/usr/lib/python"].
Proof.
  apply (tricks_from_python_path_split_at_path_separator (H := quiet)
           "lib" "tricks" 0 (initial quiet)); reflexivity.
Defined.

End OnShapes.
